(** * katla: the POSIX socket wrapper (src/core/posix-socket.cpp)

    A shallow embedding of [katla::PosixSocket].  The object is a record of
    its data members, every method is a state-passing function over the
    object and the process-wide state it touches ([errno], the operating
    system, the sequence of calls made so far), and the operating system
    is an arbitrary transition function answering each call. *)

From Stdlib Require Import ZArith Bool List String Ascii DecimalString Lia.
Import ListNotations.
Local Open Scope string_scope.
Local Open Scope list_scope.
Local Open Scope Z_scope.

(** ** Platform constants (Linux headers) *)

Definition AF_UNIX : Z := 1.
Definition AF_INET : Z := 2.
Definition AF_INET6 : Z := 10.
Definition AF_PACKET : Z := 17.
Definition AF_CAN : Z := 29.
Definition AF_BLUETOOTH : Z := 31.
Definition AF_VSOCK : Z := 40.

Definition SOCK_STREAM : Z := 1.
Definition SOCK_DGRAM : Z := 2.
Definition SOCK_RAW : Z := 3.
Definition SOCK_SEQPACKET : Z := 5.
Definition SOCK_NONBLOCK : Z := 2048.

Definition POLLIN : Z := 1.
Definition POLLPRI : Z := 2.
Definition POLLOUT : Z := 4.
Definition POLLERR : Z := 8.
Definition POLLHUP : Z := 16.
Definition POLLNVAL : Z := 32.
Definition POLLRDHUP : Z := 8192.

Definition MSG_DONTWAIT : Z := 64.
Definition EAGAIN : Z := 11.
Definition EWOULDBLOCK : Z := 11.

Definition PACKET_MULTICAST : Z := 2.
Definition PACKET_MR_PROMISC : Z := 1.
Definition PACKET_ADD_MEMBERSHIP : Z := 1.
Definition SOL_PACKET : Z := 263.

Definition sizeof_sockaddr_ll : Z := 20.
Definition sizeof_sockaddr_un : Z := 110.
Definition sizeof_packet_mreq : Z := 16.

(** ** Integer conversions *)

(** [static_cast<uint16_t>]. *)
Definition to_uint16 (x : Z) : Z := x mod 65536.

(** [static_cast<int>] of a wider or unsigned value: two's complement wrap. *)
Definition to_int (x : Z) : Z := (x + 2147483648) mod 4294967296 - 2147483648.

(** [htons] on a little-endian host: the two bytes of a 16-bit value swapped. *)
Definition htons (x : Z) : Z :=
  Z.lor (Z.shiftl (Z.land x 255) 8) (Z.land (Z.shiftr x 8) 255).

(** Conversion of an integer to [bool], as in [flag = (revents & POLLPRI)]. *)
Definition to_bool (x : Z) : bool := negb (x =? 0).

(** What [fmt::print] writes for an unsigned argument of [{}]. *)
Definition show_unsigned (n : Z) : string :=
  NilZero.string_of_uint (N.to_uint (Z.to_N n)).

(** ** The enumerations and the result types *)

(** Modelled from the spec: posix-socket.h, which declares the enumerations,
    is not among the sources; the enumerators are those the spec lists and
    the code names.  A scoped enumeration holds any value of its underlying
    type, so a value that is none of the enumerators is [DomainOther]: the
    case the [return -1] after the switch of [mapProtocolDomain] serves. *)
Inductive ProtocolDomain : Type :=
| Unix | IPv4 | IPv6 | Packet | Can | Bluetooth | VSock
| DomainOther (raw : Z).

(** Modelled from the spec: as [ProtocolDomain]; [TypeOther] is a value that
    is none of the four enumerators. *)
Inductive Type_ : Type :=
| Stream | Datagram | SequencedPacket | Raw
| TypeOther (raw : Z).

Definition is_Packet (d : ProtocolDomain) : bool :=
  match d with Packet => true | _ => false end.
Definition is_Unix (d : ProtocolDomain) : bool :=
  match d with Unix => true | _ => false end.
Definition is_Raw (t : Type_) : bool :=
  match t with Raw => true | _ => false end.

(** Modelled from the spec: the error kinds of [PosixErrorCodes] that the
    code names (the enumeration itself is declared in the absent header). *)
Inductive PosixErrorCodes : Type :=
| InvalidDomain | InvalidType | UnixSocketPathTooLong | OperationNotSupported.

(** [std::error_code], a value and the category it is read in:
    [PosixError c] is what [make_error_code(PosixErrorCodes::c)] returns;
    [GenericError e] is [std::make_error_code(static_cast<std::errc>(e))],
    an OS error number in the generic category; [LocalCategoryError c] is
    [std::error_code(static_cast<int>(PosixErrorCodes::c), errorCategory)]
    for an [errorCategory] that is a local variable of the function that
    returns the error: the category object is gone when the caller holds
    the error, so it is none of the other two. *)
Inductive error_code : Type :=
| PosixError (c : PosixErrorCodes)
| GenericError (errnum : Z)
| LocalCategoryError (c : PosixErrorCodes).

(** [outcome::result<T>]. *)
Inductive result (T : Type) : Type :=
| Success (v : T)
| Failure (e : error_code).
Arguments Success {T} v.
Arguments Failure {T} e.

(** Modelled from the spec: [PosixSocket::WaitResult], seven boolean facts. *)
Record WaitResult : Type := mkWaitResult {
  dataToRead : bool;
  urgentDataToRead : bool;
  writingWillNotBlock : bool;
  readHangup : bool;
  writeHangup : bool;
  error : bool;
  invalid : bool
}.

(** ** Kernel address structures *)

Record sockaddr_ll : Type := mk_sockaddr_ll {
  sll_family : Z;
  sll_protocol : Z;
  sll_ifindex : Z;
  sll_hatype : Z;
  sll_pkttype : Z;
  sll_halen : Z;
  sll_addr : list Z
}.

Record sockaddr_un : Type := mk_sockaddr_un {
  sun_family : Z;
  sun_path : list ascii
}.

Record packet_mreq : Type := mk_packet_mreq {
  mr_ifindex : Z;
  mr_type : Z;
  mr_alen : Z;
  mr_address : list Z
}.

Inductive sockaddr : Type :=
| AddrLl (a : sockaddr_ll)
| AddrUn (a : sockaddr_un).

(** Value initialisation [= {}]. *)
Definition sockaddr_un_zero : sockaddr_un :=
  mk_sockaddr_un 0 (repeat zero 108).

(** [url.c_str()] as C functions read it: the characters before the first NUL. *)
Fixpoint c_str (s : string) : list ascii :=
  match s with
  | EmptyString => []
  | String c rest => if Ascii.eqb c zero then [] else c :: c_str rest
  end.

(** [strncpy(dest, src, n)]: the characters of [src], NUL-padded to [n],
    written over the first [n] bytes of [dest]. *)
Definition strncpy (dest : list ascii) (src : string) (n : nat) : list ascii :=
  let copied := firstn n (c_str src) in
  copied ++ repeat zero (n - List.length copied) ++ skipn n dest.

(** [memcpy(dest, src, n)] on byte arrays. *)
Definition memcpy (dest src : list Z) (n : nat) : list Z :=
  firstn n src ++ skipn n dest.

(** ** The operating system *)

(** The calls the class makes, with the arguments it passes.  Diagnostic
    output on stderr is a call as well: it goes through the C library and
    the kernel like the others. *)
Inductive Syscall : Type :=
| SysSocket (domain type protocol : Z)
| SysSocketpair (domain type protocol : Z)
| SysIfNametoindex (ifname : list ascii)
| SysBind (fd : Z) (addr : sockaddr) (addrlen : Z)
| SysConnect (fd : Z) (addr : sockaddr) (addrlen : Z)
| SysSetsockopt (fd level optname : Z) (optval : packet_mreq) (optlen : Z)
| SysPoll (fd events timeout : Z)
| SysRecvfrom (fd : Z) (len : Z) (flags : Z)
| SysWrite (fd : Z) (buf : list Byte.byte)
| SysSendto (fd : Z) (buf : list Byte.byte) (flags : Z) (addr : sockaddr) (addrlen : Z)
| SysClose (fd : Z)
| SysStderr (msg : string).

(** What a call gives back: its return value, the value it stores into
    [errno] if it stores one, and what it writes through its out
    parameters ([revents] of the polled descriptor, the two descriptors of
    a socket pair). *)
Record Response : Type := mkResponse {
  r_value : Z;
  r_errno : option Z;
  r_revents : Z;
  r_sd : Z * Z
}.

Definition is_bind_or_connect (c : Syscall) : bool :=
  match c with
  | SysBind _ _ _ | SysConnect _ _ _ => true
  | _ => false
  end.

(** ** The object *)

Record PosixSocket : Type := mkPosixSocket {
  _fd : Z;
  _protocolDomain : ProtocolDomain;
  _type : Type_;
  _frameType : Z;
  _nonBlocking : bool;
  _url : string
}.

Definition with_fd (fd : Z) (s : PosixSocket) : PosixSocket :=
  mkPosixSocket fd s.(_protocolDomain) s.(_type) s.(_frameType) s.(_nonBlocking) s.(_url).

Definition with_url (url : string) (s : PosixSocket) : PosixSocket :=
  mkPosixSocket s.(_fd) s.(_protocolDomain) s.(_type) s.(_frameType) s.(_nonBlocking) url.

(** Modelled from the spec: the default member initialiser of [_fd] is in
    the absent header; the spec's "not yet created" sentinel is the [-1]
    that [close] and the destructor test for. *)
Definition PosixSocket_new (d : ProtocolDomain) (t : Type_) (frameType : Z) (nonBlocking : bool) : PosixSocket :=
  mkPosixSocket (-1) d t frameType nonBlocking "".

(** The constructor that adopts a descriptor. *)
Definition PosixSocket_adopt (d : ProtocolDomain) (t : Type_) (frameType : Z) (nonBlocking : bool) (fd : Z) : PosixSocket :=
  mkPosixSocket fd d t frameType nonBlocking "".

Definition mapProtocolDomain (protocolDomain : ProtocolDomain) : Z :=
  match protocolDomain with
  | Unix => AF_UNIX
  | IPv4 => AF_INET
  | IPv6 => AF_INET6
  | Packet => AF_PACKET
  | Can => AF_CAN
  | Bluetooth => AF_BLUETOOTH
  | VSock => AF_VSOCK
  | DomainOther _ => -1
  end.

Definition mapType (type : Type_) : Z :=
  match type with
  | Stream => SOCK_STREAM
  | Datagram => SOCK_DGRAM
  | SequencedPacket => SOCK_SEQPACKET
  | Raw => SOCK_RAW
  | TypeOther _ => -1
  end.

Section Implementation.

Context {W : Type}.
Variable os_step : Syscall -> W -> Response * W.

(** The state outside the object: the operating system, [errno], and the
    calls made so far, oldest first. *)
Record World : Type := mkWorld {
  w_os : W;
  w_errno : Z;
  w_trace : list Syscall
}.

(** One call: the operating system answers, [errno] is overwritten when the
    call stores into it, the call is appended to the trace. *)
Definition perform (c : Syscall) (w : World) : Response * World :=
  let step := os_step c w.(w_os) in
  let r := fst step in
  (r, mkWorld (snd step)
        (match r.(r_errno) with Some e => e | None => w.(w_errno) end)
        (w.(w_trace) ++ [c])).

(** The answer to a call made in world [w], and the world after it. *)
Definition answer (c : Syscall) (w : World) : Response := fst (perform c w).
Definition after (c : Syscall) (w : World) : World := snd (perform c w).

(** What running a method leaves: the value returned, the object, the world. *)
Record Run (A : Type) : Type := mkRun {
  returned : A;
  self : PosixSocket;
  world : World
}.
Arguments mkRun {A}.
Arguments returned {A}.
Arguments self {A}.
Arguments world {A}.

Definition Method (A : Type) : Type := PosixSocket -> World -> Run A.

Definition ret {A} (a : A) : Method A := fun s w => mkRun a s w.

Definition mbind {A B} (m : Method A) (k : A -> Method B) : Method B :=
  fun s w => let r := m s w in k r.(returned) r.(self) r.(world).

Notation "x <- m ;; k" := (mbind m (fun x => k))
  (at level 61, m at next level, right associativity).
Notation "m ;;; k" := (mbind m (fun _ => k))
  (at level 61, right associativity).

Definition this : Method PosixSocket := fun s w => mkRun s s w.
Definition store_fd (fd : Z) : Method unit := fun s w => mkRun tt (with_fd fd s) w.
Definition store_url (url : string) : Method unit := fun s w => mkRun tt (with_url url s) w.
Definition errno : Method Z := fun s w => mkRun w.(w_errno) s w.
Definition sys (c : Syscall) : Method Response :=
  fun s w => mkRun (answer c w) s (after c w).

(** [return std::make_error_code(static_cast<std::errc>(errno))]. *)
Definition fail_errno {A} : Method (result A) :=
  e <- errno ;; ret (Failure (GenericError e)).

Definition fail_posix {A} (c : PosixErrorCodes) : Method (result A) :=
  ret (Failure (PosixError c)).

(** [PosixSocket::create]. *)
Definition create : Method (result unit) :=
  me <- this ;;
  let domain := mapProtocolDomain me.(_protocolDomain) in
  if domain =? -1 then fail_posix InvalidDomain else
  let mappedType := mapType me.(_type) in
  if mappedType =? -1 then fail_posix InvalidType else
  let mappedType := if me.(_nonBlocking) then Z.lor mappedType SOCK_NONBLOCK else mappedType in
  let frameType := 0 in
  let frameType := if is_Raw me.(_type) then to_uint16 (htons frameType) else frameType in
  r <- sys (SysSocket domain mappedType frameType) ;;
  store_fd r.(r_value) ;;;
  if r.(r_value) =? -1 then fail_errno else ret (Success tt).

(** The one call [create] makes when both mappings succeed. *)
Definition create_call (s : PosixSocket) : Syscall :=
  SysSocket (mapProtocolDomain s.(_protocolDomain))
    (if s.(_nonBlocking) then Z.lor (mapType s.(_type)) SOCK_NONBLOCK else mapType s.(_type))
    (if is_Raw s.(_type) then to_uint16 (htons 0) else 0).

(** The Unix-domain address both [bind] and [connect] build. *)
Definition unix_address (url : string) : sockaddr_un :=
  let bindAddress := sockaddr_un_zero in
  mk_sockaddr_un AF_UNIX (strncpy bindAddress.(sun_path) url (String.length url + 1)).

(** [PosixSocket::bind]. *)
Definition bind (url : string) : Method (result unit) :=
  me <- this ;;
  if is_Packet me.(_protocolDomain) && is_Raw me.(_type) then
    result <- create ;;
    match result with
    | Failure e => ret (Failure e)
    | Success _ =>
      nameToIndex <- sys (SysIfNametoindex (c_str url)) ;;
      let nameToIndexResult := nameToIndex.(r_value) in
      if nameToIndexResult =? 0 then
        sys (SysStderr ("Failed finding adapter: " ++ show_unsigned nameToIndexResult ++ ": " ++ url ++ String "010" "")%string) ;;;
        fail_errno
      else
        let destAddress :=
          mk_sockaddr_ll AF_PACKET (htons (to_uint16 me.(_frameType)))
            (to_int nameToIndexResult) 0 PACKET_MULTICAST 0 (repeat 0 8) in
        me <- this ;;
        bindResult <- sys (SysBind me.(_fd) (AddrLl destAddress) sizeof_sockaddr_ll) ;;
        if bindResult.(r_value) =? -1 then
          sys (SysStderr ("Failed binding adapter: " ++ show_unsigned nameToIndexResult ++ ": " ++ url ++ String "010" "")%string) ;;;
          fail_errno
        else
          store_url url ;;;
          let mreq := mk_packet_mreq (to_int nameToIndexResult) PACKET_MR_PROMISC 0 (repeat 0 8) in
          opt <- sys (SysSetsockopt me.(_fd) SOL_PACKET PACKET_ADD_MEMBERSHIP mreq sizeof_packet_mreq) ;;
          if opt.(r_value) =? -1 then
            sys (SysStderr ("Failed setting socket options on: " ++ show_unsigned nameToIndexResult ++ ": " ++ url ++ String "010" "")%string) ;;;
            fail_errno
          else ret (Success tt)
    end
  else if is_Unix me.(_protocolDomain) then
    result <- create ;;
    match result with
    | Failure e => ret (Failure e)
    | Success _ =>
      if (108 <=? Z.of_nat (String.length url)) then fail_posix UnixSocketPathTooLong else
      me <- this ;;
      bindResult <- sys (SysBind me.(_fd) (AddrUn (unix_address url)) sizeof_sockaddr_un) ;;
      if bindResult.(r_value) =? -1 then
        sys (SysStderr ("Failed binding to path: " ++ url ++ String "010" "")%string) ;;;
        fail_errno
      else ret (Success tt)
    end
  else fail_posix OperationNotSupported.

(** [PosixSocket::connect]. *)
Definition connect (url : string) : Method (result unit) :=
  me <- this ;;
  if is_Unix me.(_protocolDomain) then
    result <- create ;;
    match result with
    | Failure e => ret (Failure e)
    | Success _ =>
      if (108 <=? Z.of_nat (String.length url)) then fail_posix UnixSocketPathTooLong else
      me <- this ;;
      connectResult <- sys (SysConnect me.(_fd) (AddrUn (unix_address url)) sizeof_sockaddr_un) ;;
      if connectResult.(r_value) =? -1 then
        sys (SysStderr ("Failed connecting to path: " ++ url ++ String "010" "")%string) ;;;
        fail_errno
      else ret (Success tt)
    end
  else fail_posix OperationNotSupported.

(** The event mask [poll] asks for. *)
Definition poll_events (writePending : bool) : Z :=
  let events := Z.lor (Z.lor POLLIN POLLPRI) POLLRDHUP in
  if writePending then Z.lor events POLLOUT else events.

(** The decomposition of [revents] at the end of [poll]. *)
Definition decode_revents (revents : Z) : WaitResult :=
  mkWaitResult
    (to_bool (Z.land revents POLLIN) || to_bool (Z.land revents POLLPRI))
    (to_bool (Z.land revents POLLPRI))
    (to_bool (Z.land revents POLLOUT))
    (to_bool (Z.land revents POLLRDHUP))
    (to_bool (Z.land revents POLLHUP))
    (to_bool (Z.land revents POLLERR))
    (to_bool (Z.land revents POLLNVAL)).

(** [PosixSocket::poll]; [timeout] is [timeout.count()], in milliseconds. *)
Definition poll (timeout : Z) (writePending : bool) : Method (result WaitResult) :=
  me <- this ;;
  r <- sys (SysPoll me.(_fd) (poll_events writePending) (to_int timeout)) ;;
  if r.(r_value) =? -1 then fail_errno else
  ret (Success (decode_revents r.(r_revents))).

(** The readiness-wait call [poll] issues. *)
Definition poll_call (s : PosixSocket) (timeout : Z) (writePending : bool) : Syscall :=
  SysPoll s.(_fd) (poll_events writePending) (to_int timeout).

(** [PosixSocket::receiveFrom]; the bytes received land in the caller's
    buffer, which is not part of the object: the method is given its size. *)
Definition receiveFrom (buffer_size : Z) : Method (result Z) :=
  me <- this ;;
  let flags := 0 in
  let flags := if me.(_nonBlocking) then Z.lor flags MSG_DONTWAIT else flags in
  r <- sys (SysRecvfrom me.(_fd) buffer_size flags) ;;
  let nbytes := r.(r_value) in
  if nbytes =? -1 then
    e <- errno ;;
    if me.(_nonBlocking) && ((e =? EAGAIN) || (e =? EWOULDBLOCK)) then
      let nbytes := 0 in ret (Success nbytes)
    else fail_errno
  else ret (Success nbytes).

(** The receive call [receiveFrom] issues. *)
Definition receive_call (s : PosixSocket) (buffer_size : Z) : Syscall :=
  SysRecvfrom s.(_fd) buffer_size (if s.(_nonBlocking) then MSG_DONTWAIT else 0).

(** [PosixSocket::read]. *)
Definition read (buffer_size : Z) : Method (result Z) := receiveFrom buffer_size.

(** [PosixSocket::write]. *)
Definition write (buffer : list Byte.byte) : Method (result Z) :=
  me <- this ;;
  r <- sys (SysWrite me.(_fd) buffer) ;;
  let nbytes := r.(r_value) in
  if nbytes =? -1 then fail_errno else ret (Success nbytes).

(** The link-layer destination [sendTo] builds. *)
Definition sendTo_address (frameType nameToIndexResult : Z) : sockaddr_ll :=
  let addr := [1; 1; 5; 4; 0; 0; 0; 0] in
  mk_sockaddr_ll AF_PACKET (htons (to_uint16 frameType)) (to_int nameToIndexResult)
    0 0 6 (memcpy (repeat 0 8) addr 8).

(** [PosixSocket::sendTo].  The statement [return nbytes;] directly after
    the call leaves the method; the test of [nbytes] that follows it in the
    source is never reached and has no counterpart here. *)
Definition sendTo (url : string) (buffer : list Byte.byte) : Method (result Z) :=
  me <- this ;;
  if is_Packet me.(_protocolDomain) && is_Raw me.(_type) then
    result <- create ;;
    match result with
    | Failure e => ret (Failure e)
    | Success _ =>
      nameToIndex <- sys (SysIfNametoindex (c_str url)) ;;
      let nameToIndexResult := nameToIndex.(r_value) in
      if nameToIndexResult =? 0 then
        sys (SysStderr ("Failed finding adapter: " ++ show_unsigned nameToIndexResult ++ ": " ++ url ++ String "010" "")%string) ;;;
        fail_errno
      else
        me <- this ;;
        let destAddress := sendTo_address me.(_frameType) nameToIndexResult in
        r <- sys (SysSendto me.(_fd) buffer 0 (AddrLl destAddress) sizeof_sockaddr_ll) ;;
        let nbytes := r.(r_value) in
        ret (Success nbytes)
    end
  else fail_posix OperationNotSupported.

(** [PosixSocket::close]. *)
Definition close : Method (result unit) :=
  me <- this ;;
  if me.(_fd) =? -1 then ret (Success tt) else
  r <- sys (SysClose me.(_fd)) ;;
  let status := r.(r_value) in
  if status =? -1 then fail_errno else
  store_fd (-1) ;;;
  ret (Success tt).

(** [PosixSocket::createUnnamedPair], a static member: it runs on the world
    alone and returns the two new objects.  Its two configuration errors
    are built on [PosixErrorCategory errorCategory], a local of the
    function. *)
Definition createUnnamedPair (protocolDomain : ProtocolDomain) (type : Type_)
    (frameType : Z) (nonBlocking : bool) (w : World)
  : result (PosixSocket * PosixSocket) * World :=
  let mappedDomain := mapProtocolDomain protocolDomain in
  if mappedDomain =? -1 then (Failure (LocalCategoryError InvalidDomain), w) else
  let mappedType := mapType type in
  if mappedType =? -1 then (Failure (LocalCategoryError InvalidType), w) else
  let mappedType := if nonBlocking then Z.lor mappedType SOCK_NONBLOCK else mappedType in
  let sd := SysSocketpair mappedDomain mappedType 0 in
  let r := answer sd w in
  let w' := after sd w in
  if negb (r.(r_value) =? 0) then (Failure (GenericError w'.(w_errno)), w') else
  (Success (PosixSocket_adopt protocolDomain type frameType nonBlocking (fst r.(r_sd)),
            PosixSocket_adopt protocolDomain type frameType nonBlocking (snd r.(r_sd))), w').

(** The call [createUnnamedPair] makes when both mappings succeed. *)
Definition socketpair_call (protocolDomain : ProtocolDomain) (type : Type_) (nonBlocking : bool) : Syscall :=
  SysSocketpair (mapProtocolDomain protocolDomain)
    (if nonBlocking then Z.lor (mapType type) SOCK_NONBLOCK else mapType type) 0.

(** The link-layer address and the membership request [bind] builds on a
    Packet/Raw socket, and the lines it prints when a step fails. *)
Definition bind_address (frameType nameToIndexResult : Z) : sockaddr_ll :=
  mk_sockaddr_ll AF_PACKET (htons (to_uint16 frameType)) (to_int nameToIndexResult)
    0 PACKET_MULTICAST 0 (repeat 0 8).

Definition bind_membership (nameToIndexResult : Z) : packet_mreq :=
  mk_packet_mreq (to_int nameToIndexResult) PACKET_MR_PROMISC 0 (repeat 0 8).

Definition diagnostic (what : string) (nameToIndexResult : Z) (url : string) : Syscall :=
  SysStderr (what ++ show_unsigned nameToIndexResult ++ ": " ++ url ++ String "010" "")%string.

Definition diagnostic_path (what : string) (url : string) : Syscall :=
  SysStderr (what ++ url ++ String "010" "")%string.

Definition lookup_call (url : string) : Syscall := SysIfNametoindex (c_str url).

Definition packet_bind_call (fd frameType nameToIndexResult : Z) : Syscall :=
  SysBind fd (AddrLl (bind_address frameType nameToIndexResult)) sizeof_sockaddr_ll.

Definition membership_call (fd nameToIndexResult : Z) : Syscall :=
  SysSetsockopt fd SOL_PACKET PACKET_ADD_MEMBERSHIP (bind_membership nameToIndexResult)
    sizeof_packet_mreq.

Definition unix_bind_call (fd : Z) (url : string) : Syscall :=
  SysBind fd (AddrUn (unix_address url)) sizeof_sockaddr_un.

Definition unix_connect_call (fd : Z) (url : string) : Syscall :=
  SysConnect fd (AddrUn (unix_address url)) sizeof_sockaddr_un.

Definition sendto_call (fd frameType nameToIndexResult : Z) (buffer : list Byte.byte) : Syscall :=
  SysSendto fd buffer 0 (AddrLl (sendTo_address frameType nameToIndexResult)) sizeof_sockaddr_ll.

Definition is_sendto (c : Syscall) : bool :=
  match c with SysSendto _ _ _ _ _ => true | _ => false end.

(** The world after a sequence of calls, made one after the other. *)
Definition after_all (cs : list Syscall) (w : World) : World :=
  fold_left (fun w' c => after c w') cs w.

(** [PosixSocket::~PosixSocket]: an unchecked close of a descriptor still
    held; the object is gone afterwards, the world is what is left. *)
Definition destroy (s : PosixSocket) (w : World) : World :=
  if negb (s.(_fd) =? -1) then after (SysClose s.(_fd)) w else w.

(** The configuration of an object: the members fixed at construction. *)
Definition configuration (s : PosixSocket) : ProtocolDomain * Type_ * Z * bool :=
  (s.(_protocolDomain), s.(_type), s.(_frameType), s.(_nonBlocking)).

End Implementation.

(** * katla: handler registration and life cycle of the WebSocket server
      (src/websockets/websocket-server-lws.cpp) *)

(** [WebSocketServerLwsPrivate::HttpHandlers] and [WebSocketHandlers], as
    the code uses them: the key and the callbacks registered under it.
    Modelled from the spec: websocket-server-lws-private.h is not among the
    sources; the members are those [handle] and [handleWebSocket] name.
    [HttpMethod] and the callback types are parameters. *)
Module HttpHandlers.
Record t (HttpMethod Callback : Type) : Type := mk {
  url : string;
  method : HttpMethod;
  callbacks : list Callback
}.
Arguments mk {HttpMethod Callback}.
Arguments url {HttpMethod Callback}.
Arguments method {HttpMethod Callback}.
Arguments callbacks {HttpMethod Callback}.
End HttpHandlers.

Module WebSocketHandlers.
Record t (Callback : Type) : Type := mk {
  url : string;
  callbacks : list Callback
}.
Arguments mk {Callback}.
Arguments url {Callback}.
Arguments callbacks {Callback}.
End WebSocketHandlers.

Section Registration.

Context {HttpMethod Callback : Type}.
Variable method_eqb : HttpMethod -> HttpMethod -> bool.

(** The loop of [WebSocketServerLws::handle]: [None] when it runs to its
    end, the updated vector when it returns from inside. *)
Fixpoint handle_loop (httpHandlers : list (HttpHandlers.t HttpMethod Callback))
    (method : HttpMethod) (url : string) (callback : Callback)
  : option (list (HttpHandlers.t HttpMethod Callback)) :=
  match httpHandlers with
  | [] => None
  | it :: rest =>
    if negb (String.eqb (HttpHandlers.url it) url)
       || negb (method_eqb (HttpHandlers.method it) method)
    then option_map (cons it) (handle_loop rest method url callback)
    else Some (HttpHandlers.mk (HttpHandlers.url it) (HttpHandlers.method it)
                 (HttpHandlers.callbacks it ++ [callback]) :: rest)
  end.

(** [WebSocketServerLws::handle], on the vector [d->httpHandlers]. *)
Definition handle (method : HttpMethod) (url : string) (callback : Callback)
    (httpHandlers : list (HttpHandlers.t HttpMethod Callback))
  : list (HttpHandlers.t HttpMethod Callback) :=
  match handle_loop httpHandlers method url callback with
  | Some updated => updated
  | None => httpHandlers ++ [HttpHandlers.mk url method ([] ++ [callback])]
  end.

(** The loop of [WebSocketServerLws::handleWebSocket]. *)
Fixpoint handleWebSocket_loop (webSocketHandlers : list (WebSocketHandlers.t Callback))
    (url : string) (callback : Callback)
  : option (list (WebSocketHandlers.t Callback)) :=
  match webSocketHandlers with
  | [] => None
  | it :: rest =>
    if negb (String.eqb (WebSocketHandlers.url it) url)
    then option_map (cons it) (handleWebSocket_loop rest url callback)
    else Some (WebSocketHandlers.mk (WebSocketHandlers.url it)
                 (WebSocketHandlers.callbacks it ++ [callback]) :: rest)
  end.

(** [WebSocketServerLws::handleWebSocket], on [d->webSocketHandlers]. *)
Definition handleWebSocket (url : string) (callback : Callback)
    (webSocketHandlers : list (WebSocketHandlers.t Callback))
  : list (WebSocketHandlers.t Callback) :=
  match handleWebSocket_loop webSocketHandlers url callback with
  | Some updated => updated
  | None => webSocketHandlers ++ [WebSocketHandlers.mk url ([] ++ [callback])]
  end.

(** What is registered under a key: the callbacks of the first handler
    with that url and method (none when there is no such handler). *)
Definition http_key_is (method : HttpMethod) (url : string)
    (it : HttpHandlers.t HttpMethod Callback) : bool :=
  String.eqb (HttpHandlers.url it) url && method_eqb (HttpHandlers.method it) method.

Definition registered (method : HttpMethod) (url : string)
    (httpHandlers : list (HttpHandlers.t HttpMethod Callback)) : list Callback :=
  match find (http_key_is method url) httpHandlers with
  | Some it => HttpHandlers.callbacks it
  | None => []
  end.

Definition registeredWebSocket (url : string)
    (webSocketHandlers : list (WebSocketHandlers.t Callback)) : list Callback :=
  match find (fun it => String.eqb (WebSocketHandlers.url it) url) webSocketHandlers with
  | Some it => WebSocketHandlers.callbacks it
  | None => []
  end.

(** The keys of the vectors, in order. *)
Definition http_keys (httpHandlers : list (HttpHandlers.t HttpMethod Callback))
  : list (string * HttpMethod) :=
  map (fun it => (HttpHandlers.url it, HttpHandlers.method it)) httpHandlers.

Definition webSocket_keys (webSocketHandlers : list (WebSocketHandlers.t Callback))
  : list string :=
  map WebSocketHandlers.url webSocketHandlers.

End Registration.

(** ** The life cycle of the server *)

(** The one option [init] sets, by name. *)
Inductive lws_server_option : Type :=
| LWS_SERVER_OPTION_HTTP_HEADERS_SECURITY_BEST_PRACTICES_ENFORCE.

(** The members of [lws_context_creation_info] that [init] assigns a value;
    the members it points at other members of [d] ([protocols], [pvo],
    [mounts], [user]) are addresses and are left out. *)
Record lws_context_creation_info : Type := mk_info {
  port : Z;
  pt_serv_buf_size : Z;
  error_document_404 : string;
  options : option lws_server_option
}.

(** What the server calls in libwebsockets and on its worker thread. *)
Inductive ServerCall : Type :=
| LwsCreateContext (info : lws_context_creation_info)
| LwsContextDestroy (context : Z)
| LwsCancelService (context : Z)
| WorkerInit (interval_ms : Z)
| WorkerStop
| WorkerJoin
| PrintError (msg : string).

(** The server: [d->context] (0 is the null pointer), [d->info], and the calls
    made so far, oldest first. *)
Record Server : Type := mkServer {
  context : Z;
  info : lws_context_creation_info;
  calls : list ServerCall
}.

Definition called (c : ServerCall) (srv : Server) : Server :=
  mkServer srv.(context) srv.(info) (srv.(calls) ++ [c]).

(** What [init] writes into [d->info]. *)
Definition init_info (port_ : Z) : lws_context_creation_info :=
  mk_info port_ (1024 * 1024 * 8) "/404.html"
    (Some LWS_SERVER_OPTION_HTTP_HEADERS_SECURITY_BEST_PRACTICES_ENFORCE).

Section LifeCycle.

(** The library's answer to [lws_create_context]: the new context, or 0. *)
Variable lws_create_context : lws_context_creation_info -> list ServerCall -> Z.

(** [WebSocketServerLws::init]. *)
Definition init (port_ : Z) (srv : Server) : Server :=
  let info' := init_info port_ in
  let created := lws_create_context info' srv.(calls) in
  let srv := mkServer created info' (srv.(calls) ++ [LwsCreateContext info']) in
  if srv.(context) =? 0 then
    called (PrintError ("lws init failed" ++ String "010" "")%string) srv
  else called (WorkerInit 20) srv.

(** [WebSocketServerLws::stop]. *)
Definition stop (srv : Server) : Server :=
  let srv := called WorkerStop srv in
  if srv.(context) =? 0 then srv else
  let srv := called (LwsContextDestroy srv.(context)) srv in
  mkServer 0 srv.(info) srv.(calls).

(** [WebSocketServerLws::join]. *)
Definition join (srv : Server) : Server := called WorkerJoin srv.

(** [WebSocketServerLws::wakeup]. *)
Definition wakeup (srv : Server) : Server :=
  if negb (srv.(context) =? 0) then called (LwsCancelService srv.(context)) srv else srv.

(** [WebSocketServerLws::~WebSocketServerLws], up to the release of [d]. *)
Definition destructor (srv : Server) : Server :=
  let srv := stop srv in
  if negb (srv.(context) =? 0) then called (LwsContextDestroy srv.(context)) srv else srv.

End LifeCycle.

(** How often a context is destroyed in a sequence of calls. *)
Definition destroys (context_ : Z) (cs : list ServerCall) : nat :=
  List.length (filter (fun c => match c with
                                | LwsContextDestroy x => x =? context_
                                | _ => false
                                end) cs).

Arguments mkWorld {W}.
Arguments mkRun {W A}.
Arguments returned {W A}.
Arguments self {W A}.
Arguments world {W A}.

(** ** Concrete operating systems, for running the methods *)

Definition ok (v : Z) : Response := mkResponse v None 0 (0, 0).
Definition failing (e : Z) : Response := mkResponse (-1) (Some e) 0 (0, 0).

(** An operating system without state of its own, answering by the call. *)
Definition stateless (f : Syscall -> Response) : Syscall -> unit -> Response * unit :=
  fun c u => (f c, u).

(** Every call succeeds: new descriptors are 4 (and 5), the interface has
    index 2, writes take the whole buffer, nothing is ready or received. *)
Definition healthy (c : Syscall) : Response :=
  match c with
  | SysSocket _ _ _ => ok 4
  | SysSocketpair _ _ _ => mkResponse 0 None 0 (4, 5)
  | SysIfNametoindex _ => ok 2
  | SysWrite _ buf => ok (Z.of_nat (List.length buf))
  | SysSendto _ buf _ _ _ => ok (Z.of_nat (List.length buf))
  | _ => ok 0
  end.

Definition ENOENT : Z := 2.
Definition EBADF : Z := 9.
Definition EMFILE : Z := 24.
Definition ENETDOWN : Z := 100.

(** The descriptor table is full: [socket] fails with [EMFILE]. *)
Definition no_descriptors (c : Syscall) : Response :=
  match c with
  | SysSocket _ _ _ => failing EMFILE
  | _ => healthy c
  end.

(** The interface is down: [sendto] fails with [ENETDOWN]. *)
Definition network_down (c : Syscall) : Response :=
  match c with
  | SysSendto _ _ _ _ _ => failing ENETDOWN
  | _ => healthy c
  end.

(** [close] fails with [EBADF]. *)
Definition close_fails (c : Syscall) : Response :=
  match c with
  | SysClose _ => failing EBADF
  | _ => healthy c
  end.

(** Nothing to receive: [recvfrom] fails with [EAGAIN]. *)
Definition nothing_pending (c : Syscall) : Response :=
  match c with
  | SysRecvfrom _ _ _ => failing EAGAIN
  | _ => healthy c
  end.

(** Receiving fails with [EBADF]; polling fails with [EBADF]. *)
Definition bad_descriptor (c : Syscall) : Response :=
  match c with
  | SysRecvfrom _ _ _ => failing EBADF
  | SysPoll _ _ _ => failing EBADF
  | _ => healthy c
  end.

(** Five bytes arrive, and [poll] finds the descriptor ready with [revents]. *)
Definition ready_with (revents : Z) (c : Syscall) : Response :=
  match c with
  | SysRecvfrom _ _ _ => ok 5
  | SysPoll _ _ _ => mkResponse 1 None revents (0, 0)
  | _ => healthy c
  end.

(** An operating system that hands out descriptors in increasing order: its
    state is the next free descriptor. *)
Definition fresh_descriptors (c : Syscall) (next : Z) : Response * Z :=
  match c with
  | SysSocket _ _ _ => (ok next, next + 1)
  | SysSocketpair _ _ _ => (mkResponse 0 None 0 (next, next + 1), next + 2)
  | _ => (healthy c, next)
  end.

Definition ENODEV : Z := 19.
Definition EPIPE : Z := 32.
Definition EPERM : Z := 1.
Definition EADDRINUSE : Z := 98.
Definition ECONNREFUSED : Z := 111.

(** There is no such interface: the lookup returns 0 with [ENODEV]. *)
Definition no_interface (c : Syscall) : Response :=
  match c with
  | SysIfNametoindex _ => mkResponse 0 (Some ENODEV) 0 (0, 0)
  | _ => healthy c
  end.

(** The address is taken: [bind] fails with [EADDRINUSE]; nobody listens:
    [connect] fails with [ECONNREFUSED]. *)
Definition address_in_use (c : Syscall) : Response :=
  match c with
  | SysBind _ _ _ => failing EADDRINUSE
  | SysConnect _ _ _ => failing ECONNREFUSED
  | _ => healthy c
  end.

(** The membership request is refused with [EPERM]. *)
Definition membership_denied (c : Syscall) : Response :=
  match c with
  | SysSetsockopt _ _ _ _ _ => failing EPERM
  | _ => healthy c
  end.

(** The peer is gone: [write] fails with [EPIPE]. *)
Definition broken_pipe (c : Syscall) : Response :=
  match c with
  | SysWrite _ _ => failing EPIPE
  | _ => healthy c
  end.

(** Writes take one byte at a time. *)
Definition short_writes (c : Syscall) : Response :=
  match c with
  | SysWrite _ _ => ok 1
  | _ => healthy c
  end.

(** No pair can be made: [socketpair] fails with [EMFILE]. *)
Definition no_pair (c : Syscall) : Response :=
  match c with
  | SysSocketpair _ _ _ => failing EMFILE
  | _ => no_descriptors c
  end.

Definition packet_raw_nonblocking : PosixSocket := PosixSocket_new Packet Raw 35020 true.

Definition three_bytes : list Byte.byte := [Byte.x01; Byte.x02; Byte.x03].

(** A server without context, one holding context 7, and two libraries:
    one that hands out context 7, one that fails. *)
Definition server_idle : Server := mkServer 0 (init_info 0) [].
Definition server_running : Server := mkServer 7 (init_info 8080) [].
Definition lws_gives_7 (i : lws_context_creation_info) (cs : list ServerCall) : Z := 7.
Definition lws_fails (i : lws_context_creation_info) (cs : list ServerCall) : Z := 0.

(** Handlers keyed by a two-valued method, with numbered callbacks. *)
Definition two_handlers : list (HttpHandlers.t bool nat) :=
  [HttpHandlers.mk "/a" true [1%nat]; HttpHandlers.mk "/b" false [2%nat]].
Definition two_sockets : list (WebSocketHandlers.t nat) :=
  [WebSocketHandlers.mk "/a" [1%nat]; WebSocketHandlers.mk "/b" [2%nat]].

Definition world0 : World := mkWorld tt 0 [].

(** A process whose descriptors 0, 1 and 2 are taken. *)
Definition world_from_3 : World := mkWorld 3 0 [].

(** A process whose next free descriptor is 4. *)
Definition world_from_4 : World := mkWorld 4 0 [].

Definition unix_stream : PosixSocket := PosixSocket_new Unix Stream 0 false.
Definition unix_stream_open : PosixSocket := PosixSocket_adopt Unix Stream 0 false 3.
Definition unix_dgram_nonblocking : PosixSocket := PosixSocket_adopt Unix Datagram 0 true 3.
Definition packet_raw : PosixSocket := PosixSocket_new Packet Raw 35020 false.
Definition packet_raw_open : PosixSocket := PosixSocket_adopt Packet Raw 35020 false 3.
Definition ipv4_stream : PosixSocket := PosixSocket_new IPv4 Stream 0 false.

(** A path of exactly 108 bytes, and one of 107. *)
Definition path_of (n : nat) : string := string_of_list_ascii (repeat "a"%char n).
Definition path108 : string := path_of 108.
Definition path107 : string := path_of 107.

(** ** Properties, for every operating system *)

Section Properties.

Context {W : Type}.
Variable os_step : Syscall -> W -> Response * W.

Implicit Types (s : PosixSocket) (w : @World W) (c : Syscall).

Lemma after_trace c w : w_trace (after os_step c w) = w_trace w ++ [c].
Proof. reflexivity. Qed.

Lemma after_errno c w e :
  r_errno (answer os_step c w) = Some e -> w_errno (after os_step c w) = e.
Proof.
  unfold answer, after, perform; cbn [fst snd w_errno].
  intros ->. reflexivity.
Qed.

Lemma after_errno_quiet c w :
  r_errno (answer os_step c w) = None -> w_errno (after os_step c w) = w_errno w.
Proof.
  unfold answer, after, perform; cbn [fst snd w_errno].
  intros ->. reflexivity.
Qed.

(** Unfolds a method down to the calls it makes. *)
Ltac run :=
  unfold bind, connect, sendTo, close, poll, read, receiveFrom, write, create,
         fail_errno, fail_posix, errno, store_fd, store_url, this, sys, mbind, ret;
  cbn [returned self world _fd _protocolDomain _type _frameType _nonBlocking _url
       with_fd with_url].

Lemma eqb_m1_false (x : Z) : x <> -1 -> (x =? -1) = false.
Proof. intros H. apply Z.eqb_neq. exact H. Qed.

(** *** close *)

Lemma close_without_descriptor s w :
  _fd s = -1 -> close os_step s w = mkRun (Success tt) s w.
Proof.
  intros H. run. rewrite H. reflexivity.
Qed.

Lemma close_released s w :
  _fd s <> -1 ->
  r_value (answer os_step (SysClose (_fd s)) w) <> -1 ->
  close os_step s w = mkRun (Success tt) (with_fd (-1) s) (after os_step (SysClose (_fd s)) w).
Proof.
  intros Hfd Hok. run.
  rewrite (eqb_m1_false _ Hfd), (eqb_m1_false _ Hok). reflexivity.
Qed.

Lemma close_refused s w :
  _fd s <> -1 ->
  r_value (answer os_step (SysClose (_fd s)) w) = -1 ->
  close os_step s w =
  mkRun (Failure (GenericError (w_errno (after os_step (SysClose (_fd s)) w))))
        s (after os_step (SysClose (_fd s)) w).
Proof.
  intros Hfd Hko. run.
  rewrite (eqb_m1_false _ Hfd), Hko. reflexivity.
Qed.

Lemma close_success_clears s w :
  returned (close os_step s w) = Success tt -> _fd (self (close os_step s w)) = -1.
Proof.
  destruct (Z.eq_dec (_fd s) (-1)) as [Hfd | Hfd].
  - rewrite (close_without_descriptor s w Hfd). intros _. exact Hfd.
  - destruct (Z.eq_dec (r_value (answer os_step (SysClose (_fd s)) w)) (-1)) as [Hko | Hok].
    + rewrite (close_refused s w Hfd Hko). cbn [returned]. discriminate.
    + rewrite (close_released s w Hfd Hok). reflexivity.
Qed.

(** C6: [close] on an object holding no descriptor succeeds and leaves the
    object and the world as they were (no call is made); when the OS close
    succeeds the descriptor becomes -1 and the one call made is that close;
    when the OS close fails with [errno] set to [e] the result is the
    generic error [e] and the object is unchanged; and a [close] that
    follows a successful [close] succeeds again and changes nothing. *)
Theorem close_contract s w :
  (_fd s = -1 -> close os_step s w = mkRun (Success tt) s w) /\
  (_fd s <> -1 -> r_value (answer os_step (SysClose (_fd s)) w) <> -1 ->
     returned (close os_step s w) = Success tt /\
     self (close os_step s w) = with_fd (-1) s /\
     w_trace (world (close os_step s w)) = w_trace w ++ [SysClose (_fd s)]) /\
  (forall e, _fd s <> -1 ->
     r_value (answer os_step (SysClose (_fd s)) w) = -1 ->
     r_errno (answer os_step (SysClose (_fd s)) w) = Some e ->
     returned (close os_step s w) = Failure (GenericError e) /\
     self (close os_step s w) = s) /\
  (returned (close os_step s w) = Success tt ->
     close os_step (self (close os_step s w)) (world (close os_step s w)) =
     mkRun (Success tt) (self (close os_step s w)) (world (close os_step s w))).
Proof.
  repeat split.
  - apply close_without_descriptor.
  - rewrite close_released by assumption. reflexivity.
  - rewrite close_released by assumption. reflexivity.
  - rewrite close_released by assumption. apply after_trace.
  - rewrite close_refused by assumption. cbn [returned].
    rewrite (after_errno _ _ e) by assumption. reflexivity.
  - rewrite close_refused by assumption. reflexivity.
  - intros Hok. apply close_without_descriptor.
    apply close_success_clears. exact Hok.
Qed.

(** *** read and receiveFrom *)

Lemma receiveFrom_unfold s w n :
  receiveFrom os_step n s w =
  let c := receive_call s n in
  let e := w_errno (after os_step c w) in
  mkRun (if r_value (answer os_step c w) =? -1
         then if _nonBlocking s && ((e =? EAGAIN) || (e =? EWOULDBLOCK))
              then Success 0 else Failure (GenericError e)
         else Success (r_value (answer os_step c w)))
        s (after os_step c w).
Proof.
  run. unfold receive_call.
  destruct (_nonBlocking s); cbn [Z.lor andb];
    destruct (r_value (answer os_step _ w) =? -1); cbn [returned self world];
    try reflexivity.
  destruct ((_ =? EAGAIN) || (_ =? EWOULDBLOCK)); reflexivity.
Qed.

(** C7: on a non-blocking socket a receive that fails with [EAGAIN] or
    [EWOULDBLOCK] is reported as success with 0 bytes; every other failure
    of the receive call is reported as the generic error of its [errno];
    a receive that does not fail returns the byte count; [read] is
    [receiveFrom]. *)
Theorem receiveFrom_contract s w (n : Z) :
  read os_step n s w = receiveFrom os_step n s w /\
  (forall e, r_value (answer os_step (receive_call s n) w) = -1 ->
     r_errno (answer os_step (receive_call s n) w) = Some e ->
     _nonBlocking s = true -> e = EAGAIN \/ e = EWOULDBLOCK ->
     returned (receiveFrom os_step n s w) = Success 0) /\
  (forall e, r_value (answer os_step (receive_call s n) w) = -1 ->
     r_errno (answer os_step (receive_call s n) w) = Some e ->
     ~ (_nonBlocking s = true /\ (e = EAGAIN \/ e = EWOULDBLOCK)) ->
     returned (receiveFrom os_step n s w) = Failure (GenericError e)) /\
  (r_value (answer os_step (receive_call s n) w) <> -1 ->
     returned (receiveFrom os_step n s w) =
     Success (r_value (answer os_step (receive_call s n) w))).
Proof.
  split; [reflexivity |].
  rewrite receiveFrom_unfold. cbn zeta. cbn [returned].
  repeat split.
  - intros e Hko He Hnb Hwb.
    rewrite Hko, (after_errno _ _ e He), Hnb. cbn [Z.eqb Pos.eqb andb].
    destruct Hwb as [-> | ->]; reflexivity.
  - intros e Hko He Hnot.
    rewrite Hko, (after_errno _ _ e He). cbn [Z.eqb Pos.eqb].
    destruct (_nonBlocking s); [| reflexivity].
    cbn [andb].
    destruct (Z.eqb_spec e EAGAIN) as [-> | H1].
    + exfalso. apply Hnot. auto.
    + destruct (Z.eqb_spec e EWOULDBLOCK) as [-> | H2].
      * exfalso. apply Hnot. auto.
      * reflexivity.
  - intros Hok. rewrite (eqb_m1_false _ Hok). reflexivity.
Qed.

(** *** poll *)

Lemma to_bool_land_pow2 (x : Z) (k : Z) :
  0 <= k -> to_bool (Z.land x (2 ^ k)) = Z.testbit x k.
Proof.
  intros Hk. unfold to_bool.
  destruct (Z.testbit x k) eqn:Hbit.
  - apply negb_true_iff, Z.eqb_neq. intros Hzero.
    assert (Hk' : Z.testbit (Z.land x (2 ^ k)) k = true).
    { rewrite Z.land_spec, Hbit, Z.pow2_bits_true by assumption. reflexivity. }
    rewrite Hzero, Z.bits_0 in Hk'. discriminate.
  - apply negb_false_iff, Z.eqb_eq. apply Z.bits_inj'. intros n Hn.
    rewrite Z.land_spec, Z.bits_0, Z.pow2_bits_eqb by assumption.
    destruct (Z.eqb_spec k n) as [<- | _].
    + rewrite Hbit. reflexivity.
    + apply andb_false_r.
Qed.

Lemma decode_revents_bits (revents : Z) :
  decode_revents revents =
  mkWaitResult (Z.testbit revents 0 || Z.testbit revents 1)
               (Z.testbit revents 1) (Z.testbit revents 2) (Z.testbit revents 13)
               (Z.testbit revents 4) (Z.testbit revents 3) (Z.testbit revents 5).
Proof.
  unfold decode_revents.
  change POLLIN with (2 ^ 0). change POLLPRI with (2 ^ 1).
  change POLLOUT with (2 ^ 2). change POLLERR with (2 ^ 3).
  change POLLHUP with (2 ^ 4). change POLLNVAL with (2 ^ 5).
  change POLLRDHUP with (2 ^ 13).
  rewrite !to_bool_land_pow2 by lia. reflexivity.
Qed.

Lemma poll_unfold s w (timeout : Z) (writePending : bool) :
  poll os_step timeout writePending s w =
  mkRun (if r_value (answer os_step (poll_call s timeout writePending) w) =? -1
         then Failure (GenericError (w_errno (after os_step (poll_call s timeout writePending) w)))
         else Success (decode_revents (r_revents (answer os_step (poll_call s timeout writePending) w))))
        s (after os_step (poll_call s timeout writePending) w).
Proof.
  run. unfold poll_call.
  destruct (r_value (answer os_step _ w) =? -1); reflexivity.
Qed.

(** C8: [poll] fails only when the readiness-wait call returns -1, and then
    with the generic error of the [errno] that call set; when the call
    returns 0 with no event reported every flag is false; and whenever the
    call does not fail the seven flags are the bits of the returned event
    mask: data readable is bit 0 (POLLIN) or bit 1 (POLLPRI), urgent data is
    bit 1, write would not block is bit 2 (POLLOUT), read hangup is bit 13
    (POLLRDHUP), write hangup is bit 4 (POLLHUP), error is bit 3 (POLLERR),
    invalid is bit 5 (POLLNVAL).  The object is not changed. *)
Theorem poll_contract s w (timeout : Z) (writePending : bool) :
  (forall err, returned (poll os_step timeout writePending s w) = Failure err ->
     r_value (answer os_step (poll_call s timeout writePending) w) = -1) /\
  (forall e, r_value (answer os_step (poll_call s timeout writePending) w) = -1 ->
     r_errno (answer os_step (poll_call s timeout writePending) w) = Some e ->
     returned (poll os_step timeout writePending s w) = Failure (GenericError e)) /\
  (r_value (answer os_step (poll_call s timeout writePending) w) = 0 ->
     r_revents (answer os_step (poll_call s timeout writePending) w) = 0 ->
     returned (poll os_step timeout writePending s w) =
     Success (mkWaitResult false false false false false false false)) /\
  (forall revents,
     r_value (answer os_step (poll_call s timeout writePending) w) <> -1 ->
     r_revents (answer os_step (poll_call s timeout writePending) w) = revents ->
     returned (poll os_step timeout writePending s w) =
     Success (mkWaitResult (Z.testbit revents 0 || Z.testbit revents 1)
                (Z.testbit revents 1) (Z.testbit revents 2) (Z.testbit revents 13)
                (Z.testbit revents 4) (Z.testbit revents 3) (Z.testbit revents 5))) /\
  self (poll os_step timeout writePending s w) = s.
Proof.
  rewrite poll_unfold. cbn [returned self].
  repeat split.
  - intros err.
    destruct (Z.eqb_spec (r_value (answer os_step (poll_call s timeout writePending) w)) (-1))
      as [Hko | _]; [intros _; exact Hko | discriminate].
  - intros e Hko He. rewrite Hko, (after_errno _ _ e He). reflexivity.
  - intros Hzero Hrev. rewrite Hzero, Hrev. reflexivity.
  - intros revents Hok <-. rewrite (eqb_m1_false _ Hok), decode_revents_bits. reflexivity.
Qed.

(** C10: in every successful result of [poll], [urgentDataToRead] implies
    [dataToRead]. *)
Theorem poll_urgent_implies_data s w (timeout : Z) (writePending : bool) (wr : WaitResult) :
  returned (poll os_step timeout writePending s w) = Success wr ->
  urgentDataToRead wr = true ->
  dataToRead wr = true.
Proof.
  rewrite poll_unfold. cbn [returned].
  destruct (r_value (answer os_step (poll_call s timeout writePending) w) =? -1);
    [discriminate |].
  intros [= <-]. unfold decode_revents. cbn [urgentDataToRead dataToRead].
  intros ->. apply orb_true_r.
Qed.

(** *** Configurations and operations without support *)

(** X24: [create] on a domain without mapping returns [InvalidDomain], on
    a mapped domain with a type without mapping [InvalidType];
    [createUnnamedPair] returns, in the same two cases and in the same
    order, an error of that value built on its local category; [bind] on a
    socket that is neither Packet/Raw nor Unix, and [connect] on a socket
    that is not Unix, return [OperationNotSupported]; in each case the
    object and the world (the trace of calls included) are what they
    were. *)
Theorem unsupported_makes_no_call s w (url : string)
    (d : ProtocolDomain) (t : Type_) (frameType : Z) (nonBlocking : bool) :
  (mapProtocolDomain (_protocolDomain s) = -1 ->
     create os_step s w = mkRun (Failure (PosixError InvalidDomain)) s w) /\
  (mapProtocolDomain (_protocolDomain s) <> -1 -> mapType (_type s) = -1 ->
     create os_step s w = mkRun (Failure (PosixError InvalidType)) s w) /\
  (mapProtocolDomain d = -1 ->
     createUnnamedPair os_step d t frameType nonBlocking w =
     (Failure (LocalCategoryError InvalidDomain), w)) /\
  (mapProtocolDomain d <> -1 -> mapType t = -1 ->
     createUnnamedPair os_step d t frameType nonBlocking w =
     (Failure (LocalCategoryError InvalidType), w)) /\
  (is_Packet (_protocolDomain s) && is_Raw (_type s) = false ->
   is_Unix (_protocolDomain s) = false ->
     bind os_step url s w = mkRun (Failure (PosixError OperationNotSupported)) s w) /\
  (is_Unix (_protocolDomain s) = false ->
     connect os_step url s w = mkRun (Failure (PosixError OperationNotSupported)) s w).
Proof.
  repeat split.
  - intros Hd. run. rewrite Hd. reflexivity.
  - intros Hd Ht. run. rewrite (eqb_m1_false _ Hd), Ht. reflexivity.
  - intros Hd. unfold createUnnamedPair. rewrite Hd. reflexivity.
  - intros Hd Ht. unfold createUnnamedPair. rewrite (eqb_m1_false _ Hd), Ht. reflexivity.
  - intros Hp Hu. run. rewrite Hp, Hu. reflexivity.
  - intros Hu. run. rewrite Hu. reflexivity.
Qed.

(** *** Lazy creation, and the path-length check *)

Lemma create_unfold s w :
  mapProtocolDomain (_protocolDomain s) <> -1 ->
  mapType (_type s) <> -1 ->
  create os_step s w =
  mkRun (if r_value (answer os_step (create_call s) w) =? -1
         then Failure (GenericError (w_errno (after os_step (create_call s) w)))
         else Success tt)
        (with_fd (r_value (answer os_step (create_call s) w)) s)
        (after os_step (create_call s) w).
Proof.
  intros Hd Ht. run. unfold create_call.
  rewrite (eqb_m1_false _ Hd), (eqb_m1_false _ Ht).
  destruct (r_value (answer os_step _ w) =? -1); reflexivity.
Qed.

Lemma create_trace s w :
  w_trace (world (create os_step s w)) = w_trace w \/
  w_trace (world (create os_step s w)) = w_trace w ++ [create_call s].
Proof.
  destruct (Z.eq_dec (mapProtocolDomain (_protocolDomain s)) (-1)) as [Hd | Hd].
  - left. run. rewrite Hd. reflexivity.
  - destruct (Z.eq_dec (mapType (_type s)) (-1)) as [Ht | Ht].
    + left. run. rewrite (eqb_m1_false _ Hd), Ht. reflexivity.
    + right. rewrite (create_unfold s w Hd Ht). reflexivity.
Qed.

Lemma unix_domain_mapped s :
  is_Unix (_protocolDomain s) = true -> mapProtocolDomain (_protocolDomain s) <> -1.
Proof. destruct (_protocolDomain s); discriminate. Qed.

Lemma packet_raw_mapped s :
  is_Packet (_protocolDomain s) && is_Raw (_type s) = true ->
  mapProtocolDomain (_protocolDomain s) <> -1 /\ mapType (_type s) <> -1 /\
  is_Unix (_protocolDomain s) = false.
Proof.
  destruct (_protocolDomain s); try discriminate.
  destruct (_type s); try discriminate.
  intros _. repeat split; discriminate.
Qed.

Lemma unix_not_packet s :
  is_Unix (_protocolDomain s) = true ->
  is_Packet (_protocolDomain s) && is_Raw (_type s) = false.
Proof. destruct (_protocolDomain s); try discriminate. reflexivity. Qed.

(** [bind] and [connect] on a Unix-domain socket: [create], then the length
    check, then the OS call. *)
Lemma bind_unix_unfold s w (url : string) :
  is_Unix (_protocolDomain s) = true ->
  bind os_step url s w =
  let made := create os_step s w in
  match returned made with
  | Failure e => mkRun (Failure e) (self made) (world made)
  | Success _ =>
    if 108 <=? Z.of_nat (String.length url)
    then mkRun (Failure (PosixError UnixSocketPathTooLong)) (self made) (world made)
    else
      let call := SysBind (_fd (self made)) (AddrUn (unix_address url)) sizeof_sockaddr_un in
      if r_value (answer os_step call (world made)) =? -1
      then
        let msg := SysStderr ("Failed binding to path: " ++ url ++ String "010" "")%string in
        mkRun (Failure (GenericError (w_errno (after os_step msg (after os_step call (world made))))))
              (self made) (after os_step msg (after os_step call (world made)))
      else mkRun (Success tt) (self made) (after os_step call (world made))
  end.
Proof.
  intros Hu. cbn zeta.
  unfold bind, mbind, this, fail_posix, fail_errno, errno, sys, ret.
  cbn [returned self world].
  rewrite (unix_not_packet s Hu), Hu.
  destruct (create os_step s w) as [[v | e] s' w']; cbn [returned self world]; [| reflexivity].
  destruct (108 <=? Z.of_nat (String.length url)); [reflexivity |].
  destruct (r_value (answer os_step _ w') =? -1); reflexivity.
Qed.

Lemma connect_unix_unfold s w (url : string) :
  is_Unix (_protocolDomain s) = true ->
  connect os_step url s w =
  let made := create os_step s w in
  match returned made with
  | Failure e => mkRun (Failure e) (self made) (world made)
  | Success _ =>
    if 108 <=? Z.of_nat (String.length url)
    then mkRun (Failure (PosixError UnixSocketPathTooLong)) (self made) (world made)
    else
      let call := SysConnect (_fd (self made)) (AddrUn (unix_address url)) sizeof_sockaddr_un in
      if r_value (answer os_step call (world made)) =? -1
      then
        let msg := SysStderr ("Failed connecting to path: " ++ url ++ String "010" "")%string in
        mkRun (Failure (GenericError (w_errno (after os_step msg (after os_step call (world made))))))
              (self made) (after os_step msg (after os_step call (world made)))
      else mkRun (Success tt) (self made) (after os_step call (world made))
  end.
Proof.
  intros Hu. cbn zeta.
  unfold connect, mbind, this, fail_posix, fail_errno, errno, sys, ret.
  cbn [returned self world].
  rewrite Hu.
  destruct (create os_step s w) as [[v | e] s' w']; cbn [returned self world]; [| reflexivity].
  destruct (108 <=? Z.of_nat (String.length url)); [reflexivity |].
  destruct (r_value (answer os_step _ w') =? -1); reflexivity.
Qed.

(** Closes a goal on the descriptor and the trace left by a method whose
    first call is the one [create] makes. *)
Ltac after_create :=
  cbn [returned self world _fd with_fd with_url];
  split;
  [ reflexivity
  | unfold after, perform; cbn [snd w_trace];
    rewrite <- ?app_assoc; eexists; reflexivity ].

Lemma bind_unix_recreates s w (url : string) :
  is_Unix (_protocolDomain s) = true -> mapType (_type s) <> -1 ->
  _fd (self (bind os_step url s w)) = r_value (answer os_step (create_call s) w) /\
  exists rest, w_trace (world (bind os_step url s w)) = w_trace w ++ create_call s :: rest.
Proof.
  intros Hu Ht. rewrite (bind_unix_unfold s w url Hu). cbn zeta.
  rewrite (create_unfold s w (unix_domain_mapped s Hu) Ht). cbn [returned self world].
  destruct (r_value (answer os_step (create_call s) w) =? -1); [after_create |].
  destruct (108 <=? Z.of_nat (String.length url)); [after_create |].
  destruct (r_value (answer os_step _ _) =? -1); after_create.
Qed.

Lemma connect_unix_recreates s w (url : string) :
  is_Unix (_protocolDomain s) = true -> mapType (_type s) <> -1 ->
  _fd (self (connect os_step url s w)) = r_value (answer os_step (create_call s) w) /\
  exists rest, w_trace (world (connect os_step url s w)) = w_trace w ++ create_call s :: rest.
Proof.
  intros Hu Ht. rewrite (connect_unix_unfold s w url Hu). cbn zeta.
  rewrite (create_unfold s w (unix_domain_mapped s Hu) Ht). cbn [returned self world].
  destruct (r_value (answer os_step (create_call s) w) =? -1); [after_create |].
  destruct (108 <=? Z.of_nat (String.length url)); [after_create |].
  destruct (r_value (answer os_step _ _) =? -1); after_create.
Qed.

Lemma bind_packet_recreates s w (url : string) :
  is_Packet (_protocolDomain s) && is_Raw (_type s) = true ->
  _fd (self (bind os_step url s w)) = r_value (answer os_step (create_call s) w) /\
  exists rest, w_trace (world (bind os_step url s w)) = w_trace w ++ create_call s :: rest.
Proof.
  intros Hp. destruct (packet_raw_mapped s Hp) as (Hd & Ht & _).
  unfold bind, mbind, this, fail_posix, fail_errno, errno, sys, store_url, ret.
  cbn [returned self world]. rewrite Hp.
  rewrite (create_unfold s w Hd Ht). cbn [returned self world].
  destruct (r_value (answer os_step (create_call s) w) =? -1); [after_create |].
  destruct (r_value (answer os_step (SysIfNametoindex _) _) =? 0); [after_create |].
  destruct (r_value (answer os_step (SysBind _ _ _) _) =? -1); [after_create |].
  destruct (r_value (answer os_step (SysSetsockopt _ _ _ _ _) _) =? -1); after_create.
Qed.

Lemma sendTo_packet_recreates s w (url : string) (buffer : list Byte.byte) :
  is_Packet (_protocolDomain s) && is_Raw (_type s) = true ->
  _fd (self (sendTo os_step url buffer s w)) = r_value (answer os_step (create_call s) w) /\
  exists rest, w_trace (world (sendTo os_step url buffer s w)) = w_trace w ++ create_call s :: rest.
Proof.
  intros Hp. destruct (packet_raw_mapped s Hp) as (Hd & Ht & _).
  unfold sendTo, mbind, this, fail_posix, fail_errno, errno, sys, ret.
  cbn [returned self world]. rewrite Hp.
  rewrite (create_unfold s w Hd Ht). cbn [returned self world].
  destruct (r_value (answer os_step (create_call s) w) =? -1); [after_create |].
  destruct (r_value (answer os_step (SysIfNametoindex _) _) =? 0); after_create.
Qed.

(** [sendTo] on a Packet/Raw socket, once the socket is created and the
    interface found: whatever [sendto] returns, -1 included, is returned as
    the byte count. *)
Lemma sendTo_returns_sendto_value s w (url : string) (buffer : list Byte.byte) :
  is_Packet (_protocolDomain s) && is_Raw (_type s) = true ->
  r_value (answer os_step (create_call s) w) <> -1 ->
  r_value (answer os_step (SysIfNametoindex (c_str url)) (after os_step (create_call s) w)) <> 0 ->
  returned (sendTo os_step url buffer s w) =
  Success (r_value (answer os_step
    (SysSendto (r_value (answer os_step (create_call s) w)) buffer 0
       (AddrLl (sendTo_address (_frameType s)
          (r_value (answer os_step (SysIfNametoindex (c_str url))
                      (after os_step (create_call s) w)))))
       sizeof_sockaddr_ll)
    (after os_step (SysIfNametoindex (c_str url)) (after os_step (create_call s) w)))).
Proof.
  intros Hp Hok Hindex. destruct (packet_raw_mapped s Hp) as (Hd & Ht & _).
  unfold sendTo, mbind, this, fail_posix, fail_errno, errno, sys, ret.
  cbn [returned self world]. rewrite Hp.
  rewrite (create_unfold s w Hd Ht). cbn [returned self world].
  rewrite (eqb_m1_false _ Hok).
  replace (r_value (answer os_step (SysIfNametoindex (c_str url))
                      (after os_step (create_call s) w)) =? 0) with false
    by (symmetry; apply Z.eqb_neq; exact Hindex).
  reflexivity.
Qed.

(** C2, as the code has it: [bind] (on a Packet/Raw or a Unix-domain
    socket), [connect] (Unix domain) and [sendTo] (Packet/Raw) call
    [create] on every invocation, whether or not a descriptor is held: when
    the type has a mapping their first call is the OS socket creation, and
    the descriptor stored afterwards is the value that call returned. *)
Theorem supported_operations_recreate s w (url : string) (buffer : list Byte.byte) :
  mapType (_type s) <> -1 ->
  (is_Packet (_protocolDomain s) && is_Raw (_type s) = true \/
   is_Unix (_protocolDomain s) = true ->
     _fd (self (bind os_step url s w)) = r_value (answer os_step (create_call s) w) /\
     exists rest,
       w_trace (world (bind os_step url s w)) = w_trace w ++ create_call s :: rest) /\
  (is_Unix (_protocolDomain s) = true ->
     _fd (self (connect os_step url s w)) = r_value (answer os_step (create_call s) w) /\
     exists rest,
       w_trace (world (connect os_step url s w)) = w_trace w ++ create_call s :: rest) /\
  (is_Packet (_protocolDomain s) && is_Raw (_type s) = true ->
     _fd (self (sendTo os_step url buffer s w)) = r_value (answer os_step (create_call s) w) /\
     exists rest,
       w_trace (world (sendTo os_step url buffer s w)) = w_trace w ++ create_call s :: rest).
Proof.
  intros Ht. split; [| split].
  - intros [Hp | Hu].
    + apply bind_packet_recreates. exact Hp.
    + apply bind_unix_recreates; assumption.
  - intros Hu. apply connect_unix_recreates; assumption.
  - intros Hp. apply sendTo_packet_recreates. exact Hp.
Qed.

(** C4, as the code has it: on a Unix-domain socket whose creation
    succeeds, a url of 108 bytes or more makes [bind] and [connect] return
    [UnixSocketPathTooLong] after exactly one call, the socket creation of
    [create]; no OS bind or connect follows, and the object is as before
    except for its descriptor, which is the one just created. *)
Theorem path_too_long_after_create s w (url : string) :
  is_Unix (_protocolDomain s) = true ->
  mapType (_type s) <> -1 ->
  r_value (answer os_step (create_call s) w) <> -1 ->
  108 <= Z.of_nat (String.length url) ->
  (returned (bind os_step url s w) = Failure (PosixError UnixSocketPathTooLong) /\
   self (bind os_step url s w) = with_fd (r_value (answer os_step (create_call s) w)) s /\
   w_trace (world (bind os_step url s w)) = w_trace w ++ [create_call s]) /\
  (returned (connect os_step url s w) = Failure (PosixError UnixSocketPathTooLong) /\
   self (connect os_step url s w) = with_fd (r_value (answer os_step (create_call s) w)) s /\
   w_trace (world (connect os_step url s w)) = w_trace w ++ [create_call s]).
Proof.
  intros Hu Ht Hok Hlen.
  rewrite (bind_unix_unfold s w url Hu), (connect_unix_unfold s w url Hu). cbn zeta.
  rewrite (create_unfold s w (unix_domain_mapped s Hu) Ht). cbn [returned self world].
  rewrite (eqb_m1_false _ Hok).
  replace (108 <=? Z.of_nat (String.length url)) with true
    by (symmetry; apply Z.leb_le; exact Hlen).
  cbn [returned self world]. repeat split.
Qed.

Lemma create_never_binds s w c :
  In c (w_trace (world (create os_step s w))) ->
  In c (w_trace w) \/ is_bind_or_connect c = false.
Proof.
  destruct (create_trace s w) as [-> | ->].
  - auto.
  - intros Hin. apply in_app_or in Hin. destruct Hin as [Hin | [<- | []]].
    + left. exact Hin.
    + right. reflexivity.
Qed.

(** C5, as the code has it: on a Unix-domain socket and a url of 108 bytes
    or more, [bind] and [connect] return [UnixSocketPathTooLong] when
    [create] succeeded and the error of [create] when it failed, and in
    both cases make no OS bind or connect call; with a url of at most 107
    bytes and a successful [create] the length check passes: the result is
    not [UnixSocketPathTooLong] and the OS bind (connect) is called on the
    new descriptor with the address built from the url. *)
Theorem path_length_validation s w (url : string) :
  is_Unix (_protocolDomain s) = true ->
  (108 <= Z.of_nat (String.length url) ->
     returned (bind os_step url s w) =
       match returned (create os_step s w) with
       | Success _ => Failure (PosixError UnixSocketPathTooLong)
       | Failure e => Failure e
       end /\
     returned (connect os_step url s w) = returned (bind os_step url s w) /\
     (forall c, In c (w_trace (world (bind os_step url s w))) ->
        In c (w_trace w) \/ is_bind_or_connect c = false) /\
     (forall c, In c (w_trace (world (connect os_step url s w))) ->
        In c (w_trace w) \/ is_bind_or_connect c = false)) /\
  (Z.of_nat (String.length url) <= 107 ->
   returned (create os_step s w) = Success tt ->
     returned (bind os_step url s w) <> Failure (PosixError UnixSocketPathTooLong) /\
     returned (connect os_step url s w) <> Failure (PosixError UnixSocketPathTooLong) /\
     In (SysBind (_fd (self (create os_step s w))) (AddrUn (unix_address url)) sizeof_sockaddr_un)
        (w_trace (world (bind os_step url s w))) /\
     In (SysConnect (_fd (self (create os_step s w))) (AddrUn (unix_address url)) sizeof_sockaddr_un)
        (w_trace (world (connect os_step url s w)))).
Proof.
  intros Hu.
  rewrite (bind_unix_unfold s w url Hu), (connect_unix_unfold s w url Hu). cbn zeta.
  pose proof (create_never_binds s w) as Hnever.
  destruct (create os_step s w) as [made s' w']. cbn [returned self world] in *.
  split.
  - intros Hlen.
    replace (108 <=? Z.of_nat (String.length url)) with true
      by (symmetry; apply Z.leb_le; exact Hlen).
    destruct made as [v | e]; cbn [returned self world]; repeat split; assumption.
  - intros Hlen ->.
    replace (108 <=? Z.of_nat (String.length url)) with false
      by (symmetry; apply Z.leb_gt; lia).
    repeat split.
    + destruct (r_value (answer os_step _ w') =? -1); discriminate.
    + destruct (r_value (answer os_step _ w') =? -1); discriminate.
    + destruct (r_value (answer os_step _ w') =? -1); cbn [world];
        unfold after, perform; cbn [snd w_trace];
        repeat (apply in_or_app; try (right; left; reflexivity); left).
    + destruct (r_value (answer os_step _ w') =? -1); cbn [world];
        unfold after, perform; cbn [snd w_trace];
        repeat (apply in_or_app; try (right; left; reflexivity); left).
Qed.

(** *** Creation, pairs, writing *)

(** X1: when domain and type have a mapping, [create] makes exactly one
    call, a socket creation whose protocol argument is 0 whatever the
    frame type of the object, and whose type argument is the mapped type,
    plus 2048 (SOCK_NONBLOCK, bit 11) exactly when the object is
    non-blocking, and nothing else; the value returned by that call becomes
    the descriptor, and nothing else of the object changes. *)
Theorem create_socket_call s w :
  mapProtocolDomain (_protocolDomain s) <> -1 ->
  mapType (_type s) <> -1 ->
  w_trace (world (create os_step s w)) =
    w_trace w ++ [SysSocket (mapProtocolDomain (_protocolDomain s))
                    (mapType (_type s) + (if _nonBlocking s then 2048 else 0)) 0] /\
  Z.testbit (mapType (_type s) + (if _nonBlocking s then 2048 else 0)) 11 = _nonBlocking s /\
  Z.land (mapType (_type s) + (if _nonBlocking s then 2048 else 0)) 2047 = mapType (_type s) /\
  self (create os_step s w) =
    with_fd (r_value (answer os_step
               (SysSocket (mapProtocolDomain (_protocolDomain s))
                  (mapType (_type s) + (if _nonBlocking s then 2048 else 0)) 0) w)) s.
Proof.
  intros Hd Ht.
  assert (Hcall : create_call s =
                  SysSocket (mapProtocolDomain (_protocolDomain s))
                    (mapType (_type s) + (if _nonBlocking s then 2048 else 0)) 0).
  { unfold create_call.
    destruct (_type s); try (exfalso; apply Ht; reflexivity);
      destruct (_nonBlocking s); reflexivity. }
  rewrite (create_unfold s w Hd Ht), <- Hcall. cbn [world self].
  split; [apply after_trace |]. split; [| split; [| reflexivity]].
  - destruct (_type s); try (exfalso; apply Ht; reflexivity);
      destruct (_nonBlocking s); reflexivity.
  - destruct (_type s); try (exfalso; apply Ht; reflexivity);
      destruct (_nonBlocking s); reflexivity.
Qed.

(** X2: when the socket creation of [create] fails with [errno] set to
    [e], [create] returns the generic error [e] and the stored descriptor
    is -1, whatever descriptor the object held before; a [close] or a
    destruction that follows makes no OS call, so a descriptor held before
    is never closed. *)
Theorem failed_create_forgets_descriptor s w (e : Z) :
  mapProtocolDomain (_protocolDomain s) <> -1 ->
  mapType (_type s) <> -1 ->
  r_value (answer os_step (create_call s) w) = -1 ->
  r_errno (answer os_step (create_call s) w) = Some e ->
  returned (create os_step s w) = Failure (GenericError e) /\
  _fd (self (create os_step s w)) = -1 /\
  close os_step (self (create os_step s w)) (world (create os_step s w)) =
    mkRun (Success tt) (self (create os_step s w)) (world (create os_step s w)) /\
  destroy os_step (self (create os_step s w)) (world (create os_step s w)) =
    world (create os_step s w).
Proof.
  intros Hd Ht Hko He.
  rewrite (create_unfold s w Hd Ht), Hko. cbn [returned self world Z.eqb Pos.eqb].
  rewrite (after_errno _ _ e He).
  repeat split.
Qed.

(** X3: with a mapped domain and type, [createUnnamedPair] makes one
    socketpair call (protocol 0, SOCK_NONBLOCK added when asked for).  When
    the call returns 0 the result is two objects with the configuration
    asked for, holding the two descriptors the call wrote, in that order;
    when it returns anything else, with [errno] set to [e], the result is
    the generic error [e]. *)
Theorem createUnnamedPair_contract (d : ProtocolDomain) (t : Type_)
    (frameType : Z) (nonBlocking : bool) w :
  mapProtocolDomain d <> -1 ->
  mapType t <> -1 ->
  (r_value (answer os_step (socketpair_call d t nonBlocking) w) = 0 ->
     createUnnamedPair os_step d t frameType nonBlocking w =
     (Success
        (PosixSocket_adopt d t frameType nonBlocking
           (fst (r_sd (answer os_step (socketpair_call d t nonBlocking) w))),
         PosixSocket_adopt d t frameType nonBlocking
           (snd (r_sd (answer os_step (socketpair_call d t nonBlocking) w)))),
      after os_step (socketpair_call d t nonBlocking) w)) /\
  (forall e,
     r_value (answer os_step (socketpair_call d t nonBlocking) w) <> 0 ->
     r_errno (answer os_step (socketpair_call d t nonBlocking) w) = Some e ->
     createUnnamedPair os_step d t frameType nonBlocking w =
     (Failure (GenericError e), after os_step (socketpair_call d t nonBlocking) w)) /\
  w_trace (snd (createUnnamedPair os_step d t frameType nonBlocking w)) =
    w_trace w ++ [socketpair_call d t nonBlocking].
Proof.
  intros Hd Ht. unfold createUnnamedPair.
  rewrite (eqb_m1_false _ Hd), (eqb_m1_false _ Ht).
  unfold socketpair_call. cbv zeta.
  destruct nonBlocking; (repeat split;
    [ intros ->; reflexivity
    | intros e Hne He;
      replace (r_value (answer os_step _ w) =? 0) with false
        by (symmetry; apply Z.eqb_neq; exact Hne);
      cbn [negb]; rewrite (after_errno _ _ e He); reflexivity
    | destruct (negb (r_value (answer os_step _ w) =? 0)); reflexivity ]).
Qed.

(** X4: the two objects of a pair own one descriptor each: closing the
    first and then the second, with both OS closes succeeding, makes
    exactly two close calls after the socketpair call, one per
    descriptor, and leaves both objects without descriptor. *)
Theorem pair_members_close_their_own (d : ProtocolDomain) (t : Type_)
    (frameType : Z) (nonBlocking : bool) w (a b : PosixSocket) (w' : World) :
  createUnnamedPair os_step d t frameType nonBlocking w = (Success (a, b), w') ->
  _fd a <> -1 -> _fd b <> -1 ->
  r_value (answer os_step (SysClose (_fd a)) w') <> -1 ->
  r_value (answer os_step (SysClose (_fd b)) (after os_step (SysClose (_fd a)) w')) <> -1 ->
  returned (close os_step a w') = Success tt /\
  returned (close os_step b (world (close os_step a w'))) = Success tt /\
  _fd (self (close os_step a w')) = -1 /\
  _fd (self (close os_step b (world (close os_step a w')))) = -1 /\
  w_trace (world (close os_step b (world (close os_step a w')))) =
    w_trace w ++ [socketpair_call d t nonBlocking; SysClose (_fd a); SysClose (_fd b)].
Proof.
  intros Hpair Ha Hb Hca Hcb.
  assert (Htrace : w_trace w' = w_trace w ++ [socketpair_call d t nonBlocking]).
  { revert Hpair. unfold createUnnamedPair.
    destruct (mapProtocolDomain d =? -1); [discriminate |].
    destruct (mapType t =? -1); [discriminate |].
    cbv zeta. fold (socketpair_call d t nonBlocking).
    destruct (negb _); [discriminate |].
    intros [= _ _ <-]. reflexivity. }
  rewrite (close_released a w' Ha Hca). cbn [returned self world].
  rewrite (close_released b _ Hb Hcb). cbn [returned self world _fd with_fd].
  repeat split.
  rewrite !after_trace, Htrace, <- !app_assoc. reflexivity.
Qed.

(** X5: [write] makes exactly one OS write, of the whole buffer on the
    descriptor held, and does not change the object; a return of -1 with
    [errno] set to [e] becomes the generic error [e], any other return
    value, a short count included, is returned as the byte count. *)
Theorem write_contract s w (buffer : list Byte.byte) :
  self (write os_step buffer s w) = s /\
  w_trace (world (write os_step buffer s w)) = w_trace w ++ [SysWrite (_fd s) buffer] /\
  (forall e, r_value (answer os_step (SysWrite (_fd s) buffer) w) = -1 ->
     r_errno (answer os_step (SysWrite (_fd s) buffer) w) = Some e ->
     returned (write os_step buffer s w) = Failure (GenericError e)) /\
  (r_value (answer os_step (SysWrite (_fd s) buffer) w) <> -1 ->
     returned (write os_step buffer s w) =
     Success (r_value (answer os_step (SysWrite (_fd s) buffer) w))).
Proof.
  run.
  destruct (Z.eqb_spec (r_value (answer os_step (SysWrite (_fd s) buffer) w)) (-1)) as [Hko | Hok];
    cbn [returned self world]; repeat split; try reflexivity.
  - intros e _ He. rewrite (after_errno _ _ e He). reflexivity.
  - intros Hne. exfalso. apply Hne. exact Hko.
  - intros e Hko. exfalso. apply Hok. exact Hko.
Qed.

(** *** Destruction *)

(** X6: an object destroyed after [close] has its descriptor closed once
    if that [close] succeeded, and a second time, by the destructor, if it
    failed; an object without descriptor is destroyed without any call. *)
Theorem destroy_after_close s w :
  (_fd s = -1 -> destroy os_step s w = w) /\
  (_fd s <> -1 -> returned (close os_step s w) = Success tt ->
     w_trace (destroy os_step (self (close os_step s w)) (world (close os_step s w))) =
     w_trace w ++ [SysClose (_fd s)]) /\
  (_fd s <> -1 -> returned (close os_step s w) <> Success tt ->
     w_trace (destroy os_step (self (close os_step s w)) (world (close os_step s w))) =
     w_trace w ++ [SysClose (_fd s); SysClose (_fd s)]).
Proof.
  repeat split.
  - intros Hfd. unfold destroy. rewrite Hfd. reflexivity.
  - intros Hfd.
    destruct (Z.eq_dec (r_value (answer os_step (SysClose (_fd s)) w)) (-1)) as [Hko | Hok].
    + rewrite (close_refused s w Hfd Hko). cbn [returned]. discriminate.
    + rewrite (close_released s w Hfd Hok). cbn [returned self world]. intros _.
      unfold destroy. cbn [_fd with_fd Z.eqb Pos.eqb negb]. apply after_trace.
  - intros Hfd.
    destruct (Z.eq_dec (r_value (answer os_step (SysClose (_fd s)) w)) (-1)) as [Hko | Hok].
    + rewrite (close_refused s w Hfd Hko). cbn [returned self world]. intros _.
      unfold destroy. rewrite (eqb_m1_false _ Hfd). cbn [negb].
      rewrite !after_trace, <- app_assoc. reflexivity.
    + rewrite (close_released s w Hfd Hok). cbn [returned]. intros Hne.
      exfalso. apply Hne. reflexivity.
Qed.

(** *** Binding and sending on a Packet/Raw socket *)

Lemma after_all_trace (cs : list Syscall) w :
  w_trace (after_all os_step cs w) = w_trace w ++ cs.
Proof.
  revert w. induction cs as [| c cs IH]; intros w.
  - cbn. symmetry. apply app_nil_r.
  - cbn [after_all fold_left]. fold (after_all os_step cs (after os_step c w)).
    rewrite IH, after_trace, <- app_assoc. reflexivity.
Qed.

Lemma bind_packet_unfold s w (url : string) :
  is_Packet (_protocolDomain s) && is_Raw (_type s) = true ->
  bind os_step url s w =
  let fd := r_value (answer os_step (create_call s) w) in
  let w1 := after_all os_step [create_call s] w in
  if fd =? -1 then mkRun (Failure (GenericError (w_errno w1))) (with_fd fd s) w1 else
  let index := r_value (answer os_step (lookup_call url) w1) in
  let w2 := after_all os_step [create_call s; lookup_call url] w in
  if index =? 0 then
    let w3 := after os_step (diagnostic "Failed finding adapter: " index url) w2 in
    mkRun (Failure (GenericError (w_errno w3))) (with_fd fd s) w3
  else
    let w3 := after os_step (packet_bind_call fd (_frameType s) index) w2 in
    if r_value (answer os_step (packet_bind_call fd (_frameType s) index) w2) =? -1 then
      let w4 := after os_step (diagnostic "Failed binding adapter: " index url) w3 in
      mkRun (Failure (GenericError (w_errno w4))) (with_fd fd s) w4
    else
      let w4 := after os_step (membership_call fd index) w3 in
      if r_value (answer os_step (membership_call fd index) w3) =? -1 then
        let w5 := after os_step (diagnostic "Failed setting socket options on: " index url) w4 in
        mkRun (Failure (GenericError (w_errno w5))) (with_url url (with_fd fd s)) w5
      else mkRun (Success tt) (with_url url (with_fd fd s)) w4.
Proof.
  intros Hp. destruct (packet_raw_mapped s Hp) as (Hd & Ht & _).
  unfold bind, mbind, this, fail_posix, fail_errno, errno, sys, store_url, ret.
  cbn [returned self world]. rewrite Hp.
  rewrite (create_unfold s w Hd Ht).
  cbv zeta. cbn [returned self world after_all fold_left _fd with_fd _frameType].
  unfold lookup_call, packet_bind_call, membership_call, sendto_call, diagnostic,
         bind_address, bind_membership.
  destruct (r_value (answer os_step (create_call s) w) =? -1); [reflexivity |].
  destruct (r_value (answer os_step (SysIfNametoindex _) _) =? 0); [reflexivity |].
  destruct (r_value (answer os_step (SysBind _ _ _) _) =? -1); [reflexivity |].
  destruct (r_value (answer os_step (SysSetsockopt _ _ _ _ _) _) =? -1); reflexivity.
Qed.

Lemma sendTo_packet_unfold s w (url : string) (buffer : list Byte.byte) :
  is_Packet (_protocolDomain s) && is_Raw (_type s) = true ->
  sendTo os_step url buffer s w =
  let fd := r_value (answer os_step (create_call s) w) in
  let w1 := after_all os_step [create_call s] w in
  if fd =? -1 then mkRun (Failure (GenericError (w_errno w1))) (with_fd fd s) w1 else
  let index := r_value (answer os_step (lookup_call url) w1) in
  let w2 := after_all os_step [create_call s; lookup_call url] w in
  if index =? 0 then
    let w3 := after os_step (diagnostic "Failed finding adapter: " index url) w2 in
    mkRun (Failure (GenericError (w_errno w3))) (with_fd fd s) w3
  else
    mkRun (Success (r_value (answer os_step (sendto_call fd (_frameType s) index buffer) w2)))
          (with_fd fd s)
          (after os_step (sendto_call fd (_frameType s) index buffer) w2).
Proof.
  intros Hp. destruct (packet_raw_mapped s Hp) as (Hd & Ht & _).
  unfold sendTo, mbind, this, fail_posix, fail_errno, errno, sys, ret.
  cbn [returned self world]. rewrite Hp.
  rewrite (create_unfold s w Hd Ht).
  cbv zeta. cbn [returned self world after_all fold_left _fd with_fd _frameType].
  unfold lookup_call, packet_bind_call, membership_call, sendto_call, diagnostic,
         bind_address, bind_membership.
  destruct (r_value (answer os_step (create_call s) w) =? -1); [reflexivity |].
  destruct (r_value (answer os_step (SysIfNametoindex _) _) =? 0); reflexivity.
Qed.

(** X7: on a Packet/Raw socket whose creation succeeded, an interface
    lookup that returns 0 ends [bind] and [sendTo] with a generic error
    after three calls: the socket creation, the lookup, and one line on
    stderr that names index 0 and the url.  No OS bind, membership or
    sendto call is made, [_url] keeps its value, and the new descriptor
    stays in the object, open.  The error is the [errno] of the lookup
    when printing leaves [errno] alone. *)
Theorem unknown_interface s w (url : string) (buffer : list Byte.byte) (fd : Z) :
  is_Packet (_protocolDomain s) && is_Raw (_type s) = true ->
  r_value (answer os_step (create_call s) w) = fd -> fd <> -1 ->
  r_value (answer os_step (lookup_call url) (after_all os_step [create_call s] w)) = 0 ->
  (self (bind os_step url s w) = with_fd fd s /\
   w_trace (world (bind os_step url s w)) =
     w_trace w ++ [create_call s; lookup_call url; diagnostic "Failed finding adapter: " 0 url] /\
   self (sendTo os_step url buffer s w) = with_fd fd s /\
   world (sendTo os_step url buffer s w) = world (bind os_step url s w) /\
   returned (bind os_step url s w) =
     Failure (GenericError (w_errno (world (bind os_step url s w)))) /\
   returned (sendTo os_step url buffer s w) =
     Failure (GenericError (w_errno (world (bind os_step url s w))))) /\
  (forall e,
     r_errno (answer os_step (lookup_call url) (after_all os_step [create_call s] w)) = Some e ->
     r_errno (answer os_step (diagnostic "Failed finding adapter: " 0 url)
                (after_all os_step [create_call s; lookup_call url] w)) = None ->
     returned (bind os_step url s w) = Failure (GenericError e) /\
     returned (sendTo os_step url buffer s w) = Failure (GenericError e)).
Proof.
  intros Hp Hfd Hok Hzero.
  rewrite (bind_packet_unfold s w url Hp), (sendTo_packet_unfold s w url buffer Hp).
  cbv zeta. rewrite Hfd, (eqb_m1_false _ Hok), Hzero. cbn [Z.eqb returned self world].
  split.
  - repeat split.
    rewrite after_trace, after_all_trace, <- app_assoc. reflexivity.
  - intros e He Hquiet.
    assert (Herr : w_errno (after os_step (diagnostic "Failed finding adapter: " 0 url)
                      (after_all os_step [create_call s; lookup_call url] w)) = e).
    { unfold after at 1. unfold perform. cbn [snd w_errno].
      unfold answer, perform in Hquiet. cbn [fst] in Hquiet. rewrite Hquiet.
      cbn [after_all fold_left]. apply after_errno. exact He. }
    rewrite Herr. split; reflexivity.
Qed.

(** X8: on a Packet/Raw socket whose creation and interface lookup
    succeeded, [_url] becomes the url exactly when the OS bind succeeds,
    before the membership request is made: a failed OS bind leaves [_url]
    as it was and makes no membership request; after a successful OS bind
    [_url] is the url whether the membership request succeeds ([bind]
    returns success) or fails ([bind] returns an error, with the socket
    bound and the url recorded). *)
Theorem packet_bind_records_url s w (url : string) (fd index : Z) :
  is_Packet (_protocolDomain s) && is_Raw (_type s) = true ->
  r_value (answer os_step (create_call s) w) = fd -> fd <> -1 ->
  r_value (answer os_step (lookup_call url) (after_all os_step [create_call s] w)) = index ->
  index <> 0 ->
  (r_value (answer os_step (packet_bind_call fd (_frameType s) index)
              (after_all os_step [create_call s; lookup_call url] w)) = -1 ->
     self (bind os_step url s w) = with_fd fd s /\
     (exists e, returned (bind os_step url s w) = Failure (GenericError e)) /\
     w_trace (world (bind os_step url s w)) =
       w_trace w ++ [create_call s; lookup_call url;
                     packet_bind_call fd (_frameType s) index;
                     diagnostic "Failed binding adapter: " index url]) /\
  (r_value (answer os_step (packet_bind_call fd (_frameType s) index)
              (after_all os_step [create_call s; lookup_call url] w)) <> -1 ->
     self (bind os_step url s w) = with_url url (with_fd fd s) /\
     (r_value (answer os_step (membership_call fd index)
                 (after_all os_step [create_call s; lookup_call url;
                                     packet_bind_call fd (_frameType s) index] w)) <> -1 ->
        returned (bind os_step url s w) = Success tt /\
        w_trace (world (bind os_step url s w)) =
          w_trace w ++ [create_call s; lookup_call url;
                        packet_bind_call fd (_frameType s) index;
                        membership_call fd index]) /\
     (r_value (answer os_step (membership_call fd index)
                 (after_all os_step [create_call s; lookup_call url;
                                     packet_bind_call fd (_frameType s) index] w)) = -1 ->
        exists e, returned (bind os_step url s w) = Failure (GenericError e))).
Proof.
  intros Hp Hfd Hok Hindex Hfound.
  rewrite (bind_packet_unfold s w url Hp).
  cbv zeta. rewrite Hfd, (eqb_m1_false _ Hok), Hindex.
  replace (index =? 0) with false by (symmetry; apply Z.eqb_neq; exact Hfound).
  split.
  - intros ->. cbn [Z.eqb Pos.eqb returned self world]. repeat split.
    + eexists. reflexivity.
    + rewrite !after_trace, after_all_trace, <- !app_assoc. reflexivity.
  - intros Hbound. rewrite (eqb_m1_false _ Hbound).
    change (after os_step (packet_bind_call fd (_frameType s) index)
              (after_all os_step [create_call s; lookup_call url] w))
      with (after_all os_step [create_call s; lookup_call url;
                               packet_bind_call fd (_frameType s) index] w).
    split; [| split].
    + destruct (r_value (answer os_step (membership_call fd index) _) =? -1); reflexivity.
    + intros Hjoined. rewrite (eqb_m1_false _ Hjoined). cbn [returned world]. split.
      * reflexivity.
      * rewrite after_trace, after_all_trace, <- app_assoc. reflexivity.
    + intros ->. cbn [Z.eqb Pos.eqb returned]. eexists. reflexivity.
Qed.

(** X9: [sendTo] makes an OS sendto call only on a Packet/Raw socket, after
    a socket creation that did not return -1 and an interface lookup that
    did not return 0; on any other socket it returns
    [OperationNotSupported] and touches neither the object nor the
    world. *)
Theorem sendTo_sends_only_when_resolved s w (url : string) (buffer : list Byte.byte) :
  (is_Packet (_protocolDomain s) && is_Raw (_type s) = false ->
     sendTo os_step url buffer s w = mkRun (Failure (PosixError OperationNotSupported)) s w) /\
  (forall c, In c (w_trace (world (sendTo os_step url buffer s w))) ->
     is_sendto c = true ->
     In c (w_trace w) \/
     (is_Packet (_protocolDomain s) && is_Raw (_type s) = true /\
      r_value (answer os_step (create_call s) w) <> -1 /\
      r_value (answer os_step (lookup_call url) (after_all os_step [create_call s] w)) <> 0)).
Proof.
  split.
  - intros Hp. run. rewrite Hp. reflexivity.
  - intros c.
    destruct (is_Packet (_protocolDomain s) && is_Raw (_type s)) eqn:Hp.
    + rewrite (sendTo_packet_unfold s w url buffer Hp). cbv zeta.
      destruct (Z.eqb_spec (r_value (answer os_step (create_call s) w)) (-1)) as [Hko | Hok].
      * cbn [world]. rewrite after_all_trace. intros Hin Hsend.
        apply in_app_or in Hin. destruct Hin as [Hin | [<- | []]]; [auto | discriminate].
      * destruct (Z.eqb_spec (r_value (answer os_step (lookup_call url)
                                (after_all os_step [create_call s] w))) 0) as [Hzero | Hfound].
        -- cbn [world]. rewrite after_trace, after_all_trace. intros Hin Hsend.
           apply in_app_or in Hin. destruct Hin as [Hin | [<- | []]]; [| discriminate].
           apply in_app_or in Hin. destruct Hin as [Hin | [<- | [<- | []]]];
             [auto | discriminate | discriminate].
        -- intros _ _. right. repeat split; assumption.
    + run. rewrite Hp. cbn [world]. auto.
Qed.

(** *** Binding and connecting on a Unix-domain socket *)

(** X10: on a Unix-domain socket whose creation succeeded, with a url of at
    most 107 bytes, [bind] and [connect] make the OS call on the new
    descriptor and return success when it does not return -1, after
    exactly two calls; when it returns -1 with [errno] set to [e], and
    printing the diagnostic leaves [errno] alone, they return the generic
    error [e]. *)
Theorem unix_bind_connect_result s w (url : string) (fd : Z) :
  is_Unix (_protocolDomain s) = true ->
  mapType (_type s) <> -1 ->
  r_value (answer os_step (create_call s) w) = fd -> fd <> -1 ->
  Z.of_nat (String.length url) <= 107 ->
  (r_value (answer os_step (unix_bind_call fd url) (after_all os_step [create_call s] w)) <> -1 ->
     returned (bind os_step url s w) = Success tt /\
     w_trace (world (bind os_step url s w)) =
       w_trace w ++ [create_call s; unix_bind_call fd url]) /\
  (forall e,
     r_value (answer os_step (unix_bind_call fd url) (after_all os_step [create_call s] w)) = -1 ->
     r_errno (answer os_step (unix_bind_call fd url) (after_all os_step [create_call s] w)) = Some e ->
     r_errno (answer os_step (diagnostic_path "Failed binding to path: " url)
                (after_all os_step [create_call s; unix_bind_call fd url] w)) = None ->
     returned (bind os_step url s w) = Failure (GenericError e)) /\
  (r_value (answer os_step (unix_connect_call fd url) (after_all os_step [create_call s] w)) <> -1 ->
     returned (connect os_step url s w) = Success tt /\
     w_trace (world (connect os_step url s w)) =
       w_trace w ++ [create_call s; unix_connect_call fd url]) /\
  (forall e,
     r_value (answer os_step (unix_connect_call fd url) (after_all os_step [create_call s] w)) = -1 ->
     r_errno (answer os_step (unix_connect_call fd url) (after_all os_step [create_call s] w)) = Some e ->
     r_errno (answer os_step (diagnostic_path "Failed connecting to path: " url)
                (after_all os_step [create_call s; unix_connect_call fd url] w)) = None ->
     returned (connect os_step url s w) = Failure (GenericError e)).
Proof.
  intros Hu Ht Hfd Hok Hlen.
  rewrite (bind_unix_unfold s w url Hu), (connect_unix_unfold s w url Hu). cbv zeta.
  rewrite (create_unfold s w (unix_domain_mapped s Hu) Ht).
  cbn [returned self world _fd with_fd]. rewrite Hfd, (eqb_m1_false _ Hok).
  replace (108 <=? Z.of_nat (String.length url)) with false
    by (symmetry; apply Z.leb_gt; lia).
  fold (unix_bind_call fd url). fold (unix_connect_call fd url).
  change (after os_step (create_call s) w) with (after_all os_step [create_call s] w).
  repeat split.
  - rewrite (eqb_m1_false _ H). reflexivity.
  - rewrite (eqb_m1_false _ H). cbn [world].
    rewrite after_trace, after_all_trace, <- app_assoc. reflexivity.
  - intros e Hko He Hquiet. rewrite Hko. cbn [Z.eqb Pos.eqb returned].
    change (SysStderr ("Failed binding to path: " ++ url ++ String "010" "")%string)
      with (diagnostic_path "Failed binding to path: " url).
    rewrite (after_errno_quiet _
               (after os_step (unix_bind_call fd url) (after_all os_step [create_call s] w))
               Hquiet).
    rewrite (after_errno _ _ e He). reflexivity.
  - rewrite (eqb_m1_false _ H). reflexivity.
  - rewrite (eqb_m1_false _ H). cbn [world].
    rewrite after_trace, after_all_trace, <- app_assoc. reflexivity.
  - intros e Hko He Hquiet. rewrite Hko. cbn [Z.eqb Pos.eqb returned].
    change (SysStderr ("Failed connecting to path: " ++ url ++ String "010" "")%string)
      with (diagnostic_path "Failed connecting to path: " url).
    rewrite (after_errno_quiet _
               (after os_step (unix_connect_call fd url) (after_all os_step [create_call s] w))
               Hquiet).
    rewrite (after_errno _ _ e He). reflexivity.
Qed.

(** *** What the methods leave alone *)

(** Runs a method through every branch. *)
Ltac branches :=
  run;
  repeat match goal with
         | |- context [if ?b then _ else _] =>
             destruct b; cbn [returned self world _fd _protocolDomain _type _frameType
                              _nonBlocking _url with_fd with_url configuration]
         end;
  try reflexivity.

(** X11: no method changes the configuration of the object: protocol
    domain, type, frame type and the non-blocking flag are after every call
    what they were at construction. *)
Theorem configuration_is_frozen s w (url : string) (buffer : list Byte.byte)
    (n timeout : Z) (writePending : bool) :
  configuration (self (create os_step s w)) = configuration s /\
  configuration (self (bind os_step url s w)) = configuration s /\
  configuration (self (connect os_step url s w)) = configuration s /\
  configuration (self (poll os_step timeout writePending s w)) = configuration s /\
  configuration (self (read os_step n s w)) = configuration s /\
  configuration (self (receiveFrom os_step n s w)) = configuration s /\
  configuration (self (write os_step buffer s w)) = configuration s /\
  configuration (self (sendTo os_step url buffer s w)) = configuration s /\
  configuration (self (close os_step s w)) = configuration s.
Proof.
  unfold configuration. repeat split; branches.
Qed.

(** X12: [_url] changes in one place only, [bind] on a Packet/Raw socket:
    [bind] on any other socket (a Unix-domain one included) and every
    other method leave it as it was. *)
Theorem url_changes_only_in_packet_bind s w (url : string) (buffer : list Byte.byte)
    (n timeout : Z) (writePending : bool) :
  (is_Packet (_protocolDomain s) && is_Raw (_type s) = false ->
     _url (self (bind os_step url s w)) = _url s) /\
  _url (self (create os_step s w)) = _url s /\
  _url (self (connect os_step url s w)) = _url s /\
  _url (self (poll os_step timeout writePending s w)) = _url s /\
  _url (self (read os_step n s w)) = _url s /\
  _url (self (receiveFrom os_step n s w)) = _url s /\
  _url (self (write os_step buffer s w)) = _url s /\
  _url (self (sendTo os_step url buffer s w)) = _url s /\
  _url (self (close os_step s w)) = _url s.
Proof.
  split; [intros Hp; run; rewrite Hp; branches | repeat split; branches].
Qed.

(** *** What poll asks for *)

Lemma poll_events_low_bits (writePending : bool) (k : nat) :
  (k < 14)%nat ->
  Z.testbit (poll_events writePending) (Z.of_nat k) =
  (Z.of_nat k =? 0) || (Z.of_nat k =? 1) || (Z.of_nat k =? 13)
  || (writePending && (Z.of_nat k =? 2)).
Proof.
  intros Hk.
  do 14 (destruct k as [| k]; [destruct writePending; reflexivity |]).
  exfalso. lia.
Qed.

(** X13: [poll] makes exactly one readiness-wait call, on the descriptor
    held.  The events it asks for are POLLIN (bit 0), POLLPRI (bit 1) and
    POLLRDHUP (bit 13), and POLLOUT (bit 2) exactly when a write is
    pending; no other bit is set.  A timeout that fits an [int] is passed
    as it is, a negative one included. *)
Theorem poll_request s w (timeout : Z) (writePending : bool) :
  w_trace (world (poll os_step timeout writePending s w)) =
    w_trace w ++ [SysPoll (_fd s) (poll_events writePending) (to_int timeout)] /\
  (forall n, 0 <= n ->
     Z.testbit (poll_events writePending) n =
     (n =? 0) || (n =? 1) || (n =? 13) || (writePending && (n =? 2))) /\
  (-2147483648 <= timeout < 2147483648 -> to_int timeout = timeout).
Proof.
  split; [| split].
  - rewrite poll_unfold. reflexivity.
  - intros n Hn.
    destruct (Z.lt_ge_cases n 14) as [Hlt | Hge].
    + rewrite <- (Z2Nat.id n Hn). apply poll_events_low_bits. lia.
    + rewrite Z.bits_above_log2.
      * destruct (Z.eqb_spec n 0), (Z.eqb_spec n 1), (Z.eqb_spec n 13), (Z.eqb_spec n 2);
          try lia; destruct writePending; reflexivity.
      * destruct writePending; vm_compute; discriminate.
      * apply Z.lt_le_trans with 14; [destruct writePending; vm_compute; reflexivity | exact Hge].
  - intros Hrange. unfold to_int.
    rewrite Z.mod_small by lia. lia.
Qed.

(** X23: [receiveFrom] (and [read]) makes exactly one receive call, on the
    descriptor held and for the size of the buffer, with MSG_DONTWAIT
    exactly when the object is non-blocking, and no other flag; it does
    not call again when the call would block, and it leaves the object
    unchanged. *)
Theorem receive_request s w (n : Z) :
  self (receiveFrom os_step n s w) = s /\
  w_trace (world (receiveFrom os_step n s w)) =
    w_trace w ++ [SysRecvfrom (_fd s) n (if _nonBlocking s then MSG_DONTWAIT else 0)] /\
  world (read os_step n s w) = world (receiveFrom os_step n s w) /\
  self (read os_step n s w) = s.
Proof.
  unfold read. rewrite receiveFrom_unfold. cbv zeta. cbn [self world].
  repeat split.
Qed.

End Properties.

(** ** The methods on concrete operating systems *)

(** C1: on a Packet/Raw socket whose [sendto] fails with [ENETDOWN],
    [sendTo] does not return an error: the call's -1 comes back as a
    successful byte count, because the method returns before it tests the
    value. *)
Theorem sendTo_failure_returned_as_byte_count :
  answer (stateless network_down)
    (SysSendto 4 [] 0 (AddrLl (sendTo_address 35020 2)) sizeof_sockaddr_ll)
    world0 = failing ENETDOWN /\
  returned (sendTo (stateless network_down) "eth0" [] packet_raw world0) = Success (-1) /\
  w_errno (world (sendTo (stateless network_down) "eth0" [] packet_raw world0)) = ENETDOWN /\
  w_trace (world (sendTo (stateless network_down) "eth0" [] packet_raw world0)) =
    [SysSocket AF_PACKET SOCK_RAW 0;
     SysIfNametoindex (c_str "eth0");
     SysSendto 4 [] 0 (AddrLl (sendTo_address 35020 2)) sizeof_sockaddr_ll].
Proof. repeat split. Qed.

(** C3: a [bind] of a Unix-domain socket that succeeds leaves [_url] empty:
    only the Packet/Raw branch of [bind] stores the url. *)
Theorem unix_bind_does_not_record_url :
  returned (bind (stateless healthy) "/tmp/katla.sock" unix_stream world0) = Success tt /\
  _url (self (bind (stateless healthy) "/tmp/katla.sock" unix_stream world0)) = ""%string /\
  _url (self (bind (stateless healthy) "eth0" packet_raw world0)) = "eth0"%string.
Proof. repeat split. Qed.

(** C2 fails as stated: binding a Unix-domain socket twice creates a
    descriptor twice; the object holds descriptor 3 after the first [bind]
    and descriptor 4 after the second. *)
Lemma rebind_replaces_descriptor :
  let first := bind fresh_descriptors "/tmp/katla.sock" unix_stream world_from_3 in
  let second := bind fresh_descriptors "/tmp/katla.sock" (self first) (world first) in
  returned first = Success tt /\
  _fd (self first) = 3 /\
  returned second = Success tt /\
  _fd (self second) = 4 /\
  _fd (self second) <> _fd (self first) /\
  w_trace (world second) =
    [SysSocket AF_UNIX SOCK_STREAM 0;
     SysBind 3 (AddrUn (unix_address "/tmp/katla.sock")) sizeof_sockaddr_un;
     SysSocket AF_UNIX SOCK_STREAM 0;
     SysBind 4 (AddrUn (unix_address "/tmp/katla.sock")) sizeof_sockaddr_un].
Proof. cbv zeta. repeat split. vm_compute. discriminate. Qed.

(** C4 fails as stated: with a path of 108 bytes [bind] and [connect]
    report [UnixSocketPathTooLong] only after the socket has been created:
    a call was made and the descriptor has changed from -1 to 4. *)
Lemma path_too_long_after_a_call :
  String.length path108 = 108%nat /\
  returned (bind (stateless healthy) path108 unix_stream world0) =
    Failure (PosixError UnixSocketPathTooLong) /\
  w_trace (world (bind (stateless healthy) path108 unix_stream world0)) =
    [SysSocket AF_UNIX SOCK_STREAM 0] /\
  _fd unix_stream = -1 /\
  _fd (self (bind (stateless healthy) path108 unix_stream world0)) = 4 /\
  returned (connect (stateless healthy) path108 unix_stream world0) =
    Failure (PosixError UnixSocketPathTooLong) /\
  w_trace (world (connect (stateless healthy) path108 unix_stream world0)) =
    [SysSocket AF_UNIX SOCK_STREAM 0] /\
  _fd (self (connect (stateless healthy) path108 unix_stream world0)) = 4.
Proof. repeat split. Qed.

(** C5 fails as stated: with a path of 108 bytes, on a Unix-domain socket
    whose creation fails with [EMFILE], [bind] and [connect] return that
    OS error and not [UnixSocketPathTooLong]. *)
Lemma path_too_long_masked_by_create_error :
  String.length path108 = 108%nat /\
  returned (bind (stateless no_descriptors) path108 unix_stream world0) =
    Failure (GenericError EMFILE) /\
  returned (bind (stateless no_descriptors) path108 unix_stream world0) <>
    Failure (PosixError UnixSocketPathTooLong) /\
  returned (connect (stateless no_descriptors) path108 unix_stream world0) =
    Failure (GenericError EMFILE) /\
  returned (connect (stateless no_descriptors) path108 unix_stream world0) <>
    Failure (PosixError UnixSocketPathTooLong).
Proof. repeat split; vm_compute; discriminate. Qed.

(** C9: for a domain (or a type) that is none of the enumerators,
    [createUnnamedPair] makes no OS call, but the error it returns is not
    the [InvalidDomain] ([InvalidType]) that [create] returns for the same
    configuration: it is built on a category object local to the call. *)
Theorem createUnnamedPair_error_on_local_category :
  createUnnamedPair (stateless healthy) (DomainOther 99) Stream 0 false world0 =
    (Failure (LocalCategoryError InvalidDomain), world0) /\
  createUnnamedPair (stateless healthy) Unix (TypeOther 99) 0 false world0 =
    (Failure (LocalCategoryError InvalidType), world0) /\
  returned (create (stateless healthy) (PosixSocket_new (DomainOther 99) Stream 0 false) world0) =
    Failure (PosixError InvalidDomain) /\
  returned (create (stateless healthy) (PosixSocket_new Unix (TypeOther 99) 0 false) world0) =
    Failure (PosixError InvalidType) /\
  LocalCategoryError InvalidDomain <> PosixError InvalidDomain /\
  LocalCategoryError InvalidType <> PosixError InvalidType.
Proof. repeat split; discriminate. Qed.

(** ** The theorems at concrete sockets *)

Lemma supported_operations_recreate_witness :
  _fd unix_stream_open = 3 /\
  _fd (self (bind fresh_descriptors "/tmp/katla.sock" unix_stream_open world_from_4)) = 4 /\
  _fd (self (connect fresh_descriptors "/tmp/katla.sock" unix_stream_open world_from_4)) = 4 /\
  _fd packet_raw_open = 3 /\
  _fd (self (sendTo fresh_descriptors "eth0" [] packet_raw_open world_from_4)) = 4.
Proof.
  assert (Hu : mapType (_type unix_stream_open) <> -1) by (vm_compute; discriminate).
  assert (Hp : mapType (_type packet_raw_open) <> -1) by (vm_compute; discriminate).
  destruct (supported_operations_recreate fresh_descriptors unix_stream_open world_from_4
              "/tmp/katla.sock" [] Hu) as (Hbind & Hconnect & _).
  destruct (supported_operations_recreate fresh_descriptors packet_raw_open world_from_4
              "eth0" [] Hp) as (_ & _ & HsendTo).
  split; [reflexivity |].
  split; [exact (proj1 (Hbind (or_intror eq_refl))) |].
  split; [exact (proj1 (Hconnect eq_refl)) |].
  split; [reflexivity |].
  exact (proj1 (HsendTo eq_refl)).
Defined.

Lemma path_too_long_after_create_witness :
  returned (bind fresh_descriptors path108 unix_stream world_from_3) =
    Failure (PosixError UnixSocketPathTooLong) /\
  self (bind fresh_descriptors path108 unix_stream world_from_3) = with_fd 3 unix_stream /\
  w_trace (world (bind fresh_descriptors path108 unix_stream world_from_3)) =
    [SysSocket AF_UNIX SOCK_STREAM 0] /\
  returned (connect fresh_descriptors path108 unix_stream world_from_3) =
    Failure (PosixError UnixSocketPathTooLong) /\
  self (connect fresh_descriptors path108 unix_stream world_from_3) = with_fd 3 unix_stream /\
  w_trace (world (connect fresh_descriptors path108 unix_stream world_from_3)) =
    [SysSocket AF_UNIX SOCK_STREAM 0].
Proof.
  assert (Ht : mapType (_type unix_stream) <> -1) by (vm_compute; discriminate).
  assert (Hok : r_value (answer fresh_descriptors (create_call unix_stream) world_from_3) <> -1)
    by (vm_compute; discriminate).
  assert (Hlen : 108 <= Z.of_nat (String.length path108)) by (vm_compute; discriminate).
  destruct (path_too_long_after_create fresh_descriptors unix_stream world_from_3 path108
              eq_refl Ht Hok Hlen) as ((B1 & B2 & B3) & (C1 & C2 & C3)).
  repeat split; assumption.
Defined.

Lemma path_length_validation_witness :
  returned (bind (stateless no_descriptors) path108 unix_stream world0) =
    Failure (GenericError EMFILE) /\
  returned (bind (stateless healthy) path108 unix_stream world0) =
    Failure (PosixError UnixSocketPathTooLong) /\
  returned (bind (stateless healthy) path107 unix_stream world0) <>
    Failure (PosixError UnixSocketPathTooLong) /\
  In (SysBind 4 (AddrUn (unix_address path107)) sizeof_sockaddr_un)
     (w_trace (world (bind (stateless healthy) path107 unix_stream world0))).
Proof.
  assert (H108 : 108 <= Z.of_nat (String.length path108)) by (vm_compute; discriminate).
  assert (H107 : Z.of_nat (String.length path107) <= 107) by (vm_compute; discriminate).
  split; [| split; [| split]].
  - exact (proj1 (proj1 (path_length_validation (stateless no_descriptors) unix_stream world0
                           path108 eq_refl) H108)).
  - exact (proj1 (proj1 (path_length_validation (stateless healthy) unix_stream world0
                           path108 eq_refl) H108)).
  - exact (proj1 (proj2 (path_length_validation (stateless healthy) unix_stream world0
                           path107 eq_refl) H107 eq_refl)).
  - exact (proj1 (proj2 (proj2 (proj2 (path_length_validation (stateless healthy) unix_stream
                           world0 path107 eq_refl) H107 eq_refl)))).
Defined.

Lemma close_contract_witness :
  close (stateless healthy) unix_stream world0 = mkRun (Success tt) unix_stream world0 /\
  (returned (close (stateless healthy) unix_stream_open world0) = Success tt /\
   self (close (stateless healthy) unix_stream_open world0) = with_fd (-1) unix_stream_open /\
   w_trace (world (close (stateless healthy) unix_stream_open world0)) = [SysClose 3]) /\
  (returned (close (stateless close_fails) unix_stream_open world0) =
     Failure (GenericError EBADF) /\
   self (close (stateless close_fails) unix_stream_open world0) = unix_stream_open) /\
  close (stateless healthy)
    (self (close (stateless healthy) unix_stream_open world0))
    (world (close (stateless healthy) unix_stream_open world0)) =
  mkRun (Success tt)
    (self (close (stateless healthy) unix_stream_open world0))
    (world (close (stateless healthy) unix_stream_open world0)).
Proof.
  assert (Hopen : _fd unix_stream_open <> -1) by (vm_compute; discriminate).
  assert (Hok : r_value (answer (stateless healthy) (SysClose (_fd unix_stream_open)) world0) <> -1)
    by (vm_compute; discriminate).
  split; [| split; [| split]].
  - exact (proj1 (close_contract (stateless healthy) unix_stream world0) eq_refl).
  - exact (proj1 (proj2 (close_contract (stateless healthy) unix_stream_open world0)) Hopen Hok).
  - exact (proj1 (proj2 (proj2 (close_contract (stateless close_fails) unix_stream_open world0)))
             EBADF Hopen eq_refl eq_refl).
  - exact (proj2 (proj2 (proj2 (close_contract (stateless healthy) unix_stream_open world0)))
             eq_refl).
Defined.

Lemma receiveFrom_contract_witness :
  returned (receiveFrom (stateless nothing_pending) 64 unix_dgram_nonblocking world0) = Success 0 /\
  returned (receiveFrom (stateless bad_descriptor) 64 unix_dgram_nonblocking world0) =
    Failure (GenericError EBADF) /\
  returned (receiveFrom (stateless nothing_pending) 64 unix_stream_open world0) =
    Failure (GenericError EAGAIN) /\
  returned (receiveFrom (stateless (ready_with POLLIN)) 64 unix_stream_open world0) = Success 5.
Proof.
  assert (Hbad : ~ (_nonBlocking unix_dgram_nonblocking = true /\ (EBADF = EAGAIN \/ EBADF = EWOULDBLOCK)))
    by (intros [_ [H | H]]; vm_compute in H; discriminate).
  assert (Hblocking : ~ (_nonBlocking unix_stream_open = true /\ (EAGAIN = EAGAIN \/ EAGAIN = EWOULDBLOCK)))
    by (intros [H _]; vm_compute in H; discriminate).
  assert (Hok : r_value (answer (stateless (ready_with POLLIN))
                   (receive_call unix_stream_open 64) world0) <> -1)
    by (vm_compute; discriminate).
  split; [| split; [| split]].
  - exact (proj1 (proj2 (receiveFrom_contract (stateless nothing_pending)
             unix_dgram_nonblocking world0 64)) EAGAIN eq_refl eq_refl eq_refl (or_introl eq_refl)).
  - exact (proj1 (proj2 (proj2 (receiveFrom_contract (stateless bad_descriptor)
             unix_dgram_nonblocking world0 64))) EBADF eq_refl eq_refl Hbad).
  - exact (proj1 (proj2 (proj2 (receiveFrom_contract (stateless nothing_pending)
             unix_stream_open world0 64))) EAGAIN eq_refl eq_refl Hblocking).
  - exact (proj2 (proj2 (proj2 (receiveFrom_contract (stateless (ready_with POLLIN))
             unix_stream_open world0 64))) Hok).
Defined.

Lemma poll_contract_witness :
  returned (poll (stateless bad_descriptor) 0 false unix_stream_open world0) =
    Failure (GenericError EBADF) /\
  returned (poll (stateless healthy) 0 false unix_stream_open world0) =
    Success (mkWaitResult false false false false false false false) /\
  returned (poll (stateless (ready_with (Z.lor POLLIN POLLRDHUP))) 100 true unix_stream_open world0) =
    Success (mkWaitResult true false false true false false false).
Proof.
  assert (Hok : r_value (answer (stateless (ready_with (Z.lor POLLIN POLLRDHUP)))
                   (poll_call unix_stream_open 100 true) world0) <> -1)
    by (vm_compute; discriminate).
  split; [| split].
  - exact (proj1 (proj2 (poll_contract (stateless bad_descriptor) unix_stream_open world0 0 false))
             EBADF eq_refl eq_refl).
  - exact (proj1 (proj2 (proj2 (poll_contract (stateless healthy) unix_stream_open world0 0 false)))
             eq_refl eq_refl).
  - exact (proj1 (proj2 (proj2 (proj2 (poll_contract (stateless (ready_with (Z.lor POLLIN POLLRDHUP)))
             unix_stream_open world0 100 true)))) (Z.lor POLLIN POLLRDHUP) Hok eq_refl).
Defined.

Lemma poll_urgent_implies_data_witness :
  returned (poll (stateless (ready_with POLLPRI)) 10 false unix_stream_open world0) =
    Success (decode_revents POLLPRI) /\
  urgentDataToRead (decode_revents POLLPRI) = true /\
  dataToRead (decode_revents POLLPRI) = true.
Proof.
  split; [reflexivity |]. split; [reflexivity |].
  exact (poll_urgent_implies_data (stateless (ready_with POLLPRI)) unix_stream_open world0
           10 false (decode_revents POLLPRI) eq_refl eq_refl).
Defined.

Lemma unsupported_makes_no_call_witness :
  create (stateless healthy) (PosixSocket_new (DomainOther 99) Stream 0 false) world0 =
    mkRun (Failure (PosixError InvalidDomain))
          (PosixSocket_new (DomainOther 99) Stream 0 false) world0 /\
  create (stateless healthy) (PosixSocket_new Unix (TypeOther 99) 0 false) world0 =
    mkRun (Failure (PosixError InvalidType))
          (PosixSocket_new Unix (TypeOther 99) 0 false) world0 /\
  createUnnamedPair (stateless healthy) (DomainOther 99) (TypeOther 99) 0 false world0 =
    (Failure (LocalCategoryError InvalidDomain), world0) /\
  createUnnamedPair (stateless healthy) Unix (TypeOther 99) 0 false world0 =
    (Failure (LocalCategoryError InvalidType), world0) /\
  bind (stateless healthy) "127.0.0.1" ipv4_stream world0 =
    mkRun (Failure (PosixError OperationNotSupported)) ipv4_stream world0 /\
  connect (stateless healthy) "127.0.0.1" ipv4_stream world0 =
    mkRun (Failure (PosixError OperationNotSupported)) ipv4_stream world0.
Proof.
  assert (Hunix : mapProtocolDomain Unix <> -1) by (vm_compute; discriminate).
  split; [| split; [| split; [| split; [| split]]]].
  - exact (proj1 (unsupported_makes_no_call (stateless healthy)
             (PosixSocket_new (DomainOther 99) Stream 0 false) world0 "" Unix Stream 0 false)
             eq_refl).
  - exact (proj1 (proj2 (unsupported_makes_no_call (stateless healthy)
             (PosixSocket_new Unix (TypeOther 99) 0 false) world0 "" Unix Stream 0 false))
             Hunix eq_refl).
  - exact (proj1 (proj2 (proj2 (unsupported_makes_no_call (stateless healthy)
             ipv4_stream world0 "" (DomainOther 99) (TypeOther 99) 0 false))) eq_refl).
  - exact (proj1 (proj2 (proj2 (proj2 (unsupported_makes_no_call (stateless healthy)
             ipv4_stream world0 "" Unix (TypeOther 99) 0 false)))) Hunix eq_refl).
  - exact (proj1 (proj2 (proj2 (proj2 (proj2 (unsupported_makes_no_call (stateless healthy)
             ipv4_stream world0 "127.0.0.1" Unix Stream 0 false))))) eq_refl eq_refl).
  - exact (proj2 (proj2 (proj2 (proj2 (proj2 (unsupported_makes_no_call (stateless healthy)
             ipv4_stream world0 "127.0.0.1" Unix Stream 0 false))))) eq_refl).
Defined.

(** ** Addresses and mappings *)

Lemma testbit_255 (n : Z) : 0 <= n -> Z.testbit 255 n = (n <? 8).
Proof.
  intros Hn. change 255 with (Z.ones 8).
  rewrite Z.testbit_ones_nonneg by lia. reflexivity.
Qed.

Lemma htons_bits (x n : Z) :
  0 <= n ->
  Z.testbit (htons x) n =
  if n <? 8 then Z.testbit x (n + 8)
  else if n <? 16 then Z.testbit x (n - 8) else false.
Proof.
  intros Hn. unfold htons.
  rewrite Z.lor_spec, Z.shiftl_spec, !Z.land_spec, Z.shiftr_spec by assumption.
  rewrite (testbit_255 n Hn).
  destruct (Z.ltb_spec n 8) as [Hlow | Hhigh].
  - rewrite (Z.testbit_neg_r _ (n - 8)) by lia. rewrite andb_true_r. reflexivity.
  - rewrite andb_false_r, orb_false_r, testbit_255 by lia.
    destruct (Z.ltb_spec n 16), (Z.ltb_spec (n - 8) 8); try lia;
      rewrite ?andb_true_r, ?andb_false_r; reflexivity.
Qed.

Lemma testbit_above_16 (x n : Z) : 0 <= x < 65536 -> 16 <= n -> Z.testbit x n = false.
Proof.
  intros Hx Hn. destruct (Z.eq_dec x 0) as [-> | Hpos].
  - apply Z.bits_0.
  - apply Z.bits_above_log2; [lia |].
    apply Z.lt_le_trans with 16; [| exact Hn].
    apply Z.log2_lt_pow2; lia.
Qed.

Lemma htons_involutive (x : Z) : 0 <= x < 65536 -> htons (htons x) = x.
Proof.
  intros Hx. apply Z.bits_inj'. intros n Hn.
  rewrite htons_bits by assumption.
  destruct (Z.ltb_spec n 8).
  - rewrite htons_bits by lia.
    destruct (Z.ltb_spec (n + 8) 8), (Z.ltb_spec (n + 8) 16); try lia.
    f_equal. lia.
  - destruct (Z.ltb_spec n 16).
    + rewrite htons_bits by lia.
      destruct (Z.ltb_spec (n - 8) 8); try lia. f_equal. lia.
    + symmetry. apply testbit_above_16; assumption.
Qed.

Lemma to_uint16_range (x : Z) : 0 <= to_uint16 x < 65536.
Proof. unfold to_uint16. apply Z.mod_pos_bound. lia. Qed.

(** X14: the protocol field of the link-layer address that [bind] and
    [sendTo] build is the low 16 bits of the frame type with its two bytes
    exchanged: bits 0 to 7 of the field are bits 8 to 15 of the frame
    type, bits 8 to 15 are bits 0 to 7, no higher bit is set, and
    exchanging the bytes again gives the frame type modulo 65536. *)
Theorem frame_type_in_network_order (frameType index : Z) :
  sll_protocol (sendTo_address frameType index) = sll_protocol (bind_address frameType index) /\
  htons (sll_protocol (bind_address frameType index)) = frameType mod 65536 /\
  (forall n, 0 <= n < 8 ->
     Z.testbit (sll_protocol (bind_address frameType index)) n = Z.testbit frameType (n + 8) /\
     Z.testbit (sll_protocol (bind_address frameType index)) (n + 8) = Z.testbit frameType n) /\
  (forall n, 16 <= n -> Z.testbit (sll_protocol (bind_address frameType index)) n = false).
Proof.
  cbn [sll_protocol bind_address sendTo_address].
  split; [reflexivity |]. split; [| split].
  - apply htons_involutive, to_uint16_range.
  - intros n Hn. rewrite !htons_bits by lia.
    destruct (Z.ltb_spec n 8), (Z.ltb_spec (n + 8) 8), (Z.ltb_spec (n + 8) 16); try lia.
    unfold to_uint16. change 65536 with (2 ^ 16).
    rewrite !Z.mod_pow2_bits_low by lia.
    split; [reflexivity | f_equal; lia].
  - intros n Hn. rewrite htons_bits by lia.
    destruct (Z.ltb_spec n 8), (Z.ltb_spec n 16); try lia; reflexivity.
Qed.

Lemma c_str_length (url : string) : (List.length (c_str url) <= String.length url)%nat.
Proof.
  induction url as [| c rest IH]; cbn [c_str String.length List.length].
  - apply Nat.le_refl.
  - destruct (Ascii.eqb c zero); cbn [List.length]; lia.
Qed.

Lemma c_str_no_nul (url : string) : Forall (fun c => c <> zero) (c_str url).
Proof.
  induction url as [| c rest IH]; cbn [c_str].
  - constructor.
  - destruct (Ascii.eqb_spec c zero) as [_ | Hc]; constructor; assumption.
Qed.

Lemma c_str_without_nul (url : string) :
  Forall (fun c => c <> zero) (list_ascii_of_string url) ->
  c_str url = list_ascii_of_string url.
Proof.
  induction url as [| c rest IH]; cbn [c_str list_ascii_of_string].
  - reflexivity.
  - intros Hall. inversion Hall as [| ? ? Hc Hrest]; subst.
    destruct (Ascii.eqb_spec c zero) as [Hz | _]; [contradiction |].
    f_equal. apply IH. exact Hrest.
Qed.

Lemma skipn_repeat {A : Type} (x : A) (n m : nat) :
  skipn n (repeat x m) = repeat x (m - n).
Proof.
  revert m. induction n as [| n IH]; intros m.
  - rewrite Nat.sub_0_r. reflexivity.
  - destruct m as [| m]; [reflexivity |]. cbn [repeat skipn Nat.sub]. apply IH.
Qed.

(** X15: for a url shorter than 108 bytes the Unix-domain address has
    family AF_UNIX and a path of exactly 108 bytes: the bytes of the url up
    to its first NUL (the whole url when it has none), followed by NUL
    bytes only, so at least one NUL ends the path. *)
Theorem unix_address_nul_terminated (url : string) :
  (String.length url < 108)%nat ->
  sun_family (unix_address url) = AF_UNIX /\
  sun_path (unix_address url) =
    c_str url ++ repeat zero (108 - List.length (c_str url)) /\
  List.length (sun_path (unix_address url)) = 108%nat /\
  (List.length (c_str url) < 108)%nat /\
  Forall (fun c => c <> zero) (c_str url) /\
  (Forall (fun c => c <> zero) (list_ascii_of_string url) ->
   c_str url = list_ascii_of_string url).
Proof.
  intros Hlen. pose proof (c_str_length url) as Hc.
  assert (Hpath : sun_path (unix_address url) =
                  c_str url ++ repeat zero (108 - List.length (c_str url))).
  { unfold unix_address, strncpy, sockaddr_un_zero. cbn [sun_path].
    rewrite firstn_all2 by lia.
    rewrite skipn_repeat, <- repeat_app. do 2 f_equal. lia. }
  split; [reflexivity |]. split; [exact Hpath |]. split; [| split; [| split]].
  - rewrite Hpath, length_app, repeat_length. lia.
  - lia.
  - apply c_str_no_nul.
  - apply c_str_without_nul.
Qed.

(** X16: the two mappings send distinct enumerators to distinct OS
    constants, none of them -1, and send exactly the values that are no
    enumerator to -1. *)
Theorem mappings_are_injective (d1 d2 : ProtocolDomain) (t1 t2 : Type_) :
  (mapProtocolDomain d1 = -1 <-> exists raw, d1 = DomainOther raw) /\
  (mapType t1 = -1 <-> exists raw, t1 = TypeOther raw) /\
  (mapProtocolDomain d1 <> -1 -> mapProtocolDomain d1 = mapProtocolDomain d2 -> d1 = d2) /\
  (mapType t1 <> -1 -> mapType t1 = mapType t2 -> t1 = t2).
Proof.
  repeat split.
  - destruct d1; try discriminate. intros _. eexists. reflexivity.
  - intros [raw ->]. reflexivity.
  - destruct t1; try discriminate. intros _. eexists. reflexivity.
  - intros [raw ->]. reflexivity.
  - destruct d1, d2; try discriminate; try reflexivity; intros Hne; exfalso; apply Hne; reflexivity.
  - destruct t1, t2; try discriminate; try reflexivity; intros Hne; exfalso; apply Hne; reflexivity.
Qed.

(** ** Handler registration *)

Section RegistrationProperties.

Context {HttpMethod Callback : Type}.
Variable method_eqb : HttpMethod -> HttpMethod -> bool.
Hypothesis method_eqb_eq : forall a b, method_eqb a b = true <-> a = b.

Implicit Types (hs : list (HttpHandlers.t HttpMethod Callback))
               (ws : list (WebSocketHandlers.t Callback))
               (it : HttpHandlers.t HttpMethod Callback)
               (m : HttpMethod) (u : string) (cb : Callback).

Lemma handle_nil m u cb :
  handle method_eqb m u cb [] = [HttpHandlers.mk u m [cb]].
Proof. reflexivity. Qed.

Lemma handle_cons_match m u cb it hs :
  http_key_is method_eqb m u it = true ->
  handle method_eqb m u cb (it :: hs) =
  HttpHandlers.mk (HttpHandlers.url it) (HttpHandlers.method it)
    (HttpHandlers.callbacks it ++ [cb]) :: hs.
Proof.
  unfold http_key_is, handle. cbn [handle_loop]. intros Hkey.
  apply andb_prop in Hkey. destruct Hkey as [-> ->]. reflexivity.
Qed.

Lemma handle_cons_other m u cb it hs :
  http_key_is method_eqb m u it = false ->
  handle method_eqb m u cb (it :: hs) = it :: handle method_eqb m u cb hs.
Proof.
  unfold http_key_is, handle. cbn [handle_loop]. intros Hkey.
  rewrite <- negb_andb, Hkey. cbn [negb].
  destruct (handle_loop method_eqb hs m u cb); reflexivity.
Qed.

Lemma http_key_is_iff m u it :
  http_key_is method_eqb m u it = true <->
  (HttpHandlers.url it, HttpHandlers.method it) = (u, m).
Proof.
  unfold http_key_is. rewrite andb_true_iff, String.eqb_eq, method_eqb_eq.
  split; [intros [-> ->]; reflexivity | intros [= -> ->]; split; reflexivity].
Qed.

Lemma http_key_is_other m u m' u' it :
  (u', m') <> (u, m) ->
  http_key_is method_eqb m u it = true ->
  http_key_is method_eqb m' u' it = false.
Proof.
  intros Hne Hkey. apply http_key_is_iff in Hkey.
  destruct (http_key_is method_eqb m' u' it) eqn:Hother; [| reflexivity].
  apply http_key_is_iff in Hother. exfalso. apply Hne. congruence.
Qed.

Lemma registered_handle_same m u cb hs :
  registered method_eqb m u (handle method_eqb m u cb hs) =
  registered method_eqb m u hs ++ [cb].
Proof.
  induction hs as [| it hs IH].
  - rewrite handle_nil. unfold registered. cbn [find].
    assert (Hkey : http_key_is method_eqb m u (HttpHandlers.mk u m [cb]) = true)
      by (apply http_key_is_iff; reflexivity).
    rewrite Hkey. reflexivity.
  - destruct (http_key_is method_eqb m u it) eqn:Hkey.
    + rewrite (handle_cons_match m u cb it hs Hkey). unfold registered. cbn [find].
      unfold http_key_is in *. cbn [HttpHandlers.url HttpHandlers.method].
      rewrite Hkey. reflexivity.
    + rewrite (handle_cons_other m u cb it hs Hkey). unfold registered in *. cbn [find].
      rewrite Hkey. exact IH.
Qed.

Lemma registered_handle_other m u cb m' u' hs :
  (u', m') <> (u, m) ->
  registered method_eqb m' u' (handle method_eqb m u cb hs) =
  registered method_eqb m' u' hs.
Proof.
  intros Hne. induction hs as [| it hs IH].
  - rewrite handle_nil. unfold registered. cbn [find].
    assert (Hkey : http_key_is method_eqb m' u' (HttpHandlers.mk u m [cb]) = false).
    { apply (http_key_is_other m u m' u'); [exact Hne |].
      apply http_key_is_iff. reflexivity. }
    rewrite Hkey. reflexivity.
  - destruct (http_key_is method_eqb m u it) eqn:Hkey.
    + rewrite (handle_cons_match m u cb it hs Hkey). unfold registered. cbn [find].
      pose proof (http_key_is_other m u m' u' it Hne Hkey) as Hother.
      unfold http_key_is in *. cbn [HttpHandlers.url HttpHandlers.method].
      rewrite Hother. reflexivity.
    + rewrite (handle_cons_other m u cb it hs Hkey). unfold registered in *. cbn [find].
      destruct (http_key_is method_eqb m' u' it); [reflexivity | exact IH].
Qed.

(** X17: after [handle(method, url, callback)] the callbacks registered
    under that url and method are those registered before followed by the
    new one, and the callbacks registered under every other url or method
    are unchanged. *)
Theorem handle_registers m u cb hs :
  registered method_eqb m u (handle method_eqb m u cb hs) =
    registered method_eqb m u hs ++ [cb] /\
  (forall m' u', (u', m') <> (u, m) ->
     registered method_eqb m' u' (handle method_eqb m u cb hs) =
     registered method_eqb m' u' hs).
Proof.
  split.
  - apply registered_handle_same.
  - intros m' u'. apply registered_handle_other.
Qed.

Lemma http_keys_handle m u cb hs :
  http_keys (handle method_eqb m u cb hs) =
  if existsb (http_key_is method_eqb m u) hs then http_keys hs
  else http_keys hs ++ [(u, m)].
Proof.
  induction hs as [| it hs IH].
  - reflexivity.
  - cbn [existsb]. destruct (http_key_is method_eqb m u it) eqn:Hkey.
    + rewrite (handle_cons_match m u cb it hs Hkey). reflexivity.
    + rewrite (handle_cons_other m u cb it hs Hkey). cbn [orb http_keys map].
      unfold http_keys in IH. rewrite IH.
      destruct (existsb (http_key_is method_eqb m u) hs); reflexivity.
Qed.

Lemma existsb_key_in m u hs :
  existsb (http_key_is method_eqb m u) hs = true <-> In (u, m) (http_keys hs).
Proof.
  unfold http_keys. rewrite existsb_exists, in_map_iff.
  split; intros [it [H1 H2]]; exists it.
  - split; [apply http_key_is_iff; exact H2 | exact H1].
  - split; [exact H2 | apply http_key_is_iff; exact H1].
Qed.

(** X18: [handle] keeps the handlers in order and adds at most one: when a
    handler for the url and method exists the keys are unchanged, otherwise
    the new key is added at the end.  A vector without two handlers for
    the same url and method stays without, and each call adds exactly one
    callback in total. *)
Theorem handle_keeps_keys_unique m u cb hs :
  (In (u, m) (http_keys hs) -> http_keys (handle method_eqb m u cb hs) = http_keys hs) /\
  (~ In (u, m) (http_keys hs) ->
     http_keys (handle method_eqb m u cb hs) = http_keys hs ++ [(u, m)]) /\
  (NoDup (http_keys hs) -> NoDup (http_keys (handle method_eqb m u cb hs))) /\
  List.length (List.concat (map HttpHandlers.callbacks (handle method_eqb m u cb hs))) =
    S (List.length (List.concat (map HttpHandlers.callbacks hs))).
Proof.
  pose proof (existsb_key_in m u hs) as Hin.
  pose proof (http_keys_handle m u cb hs) as Hkeys.
  destruct (existsb (http_key_is method_eqb m u) hs) eqn:Hex.
  - split; [| split; [| split]].
    + intros _. exact Hkeys.
    + intros Hnot. exfalso. apply Hnot, Hin. reflexivity.
    + rewrite Hkeys. auto.
    + clear Hin Hkeys Hex. induction hs as [| it hs IH]; [reflexivity |].
      destruct (http_key_is method_eqb m u it) eqn:Hkey.
      * rewrite (handle_cons_match m u cb it hs Hkey).
        cbn [map List.concat HttpHandlers.callbacks]. rewrite !length_app. cbn [List.length]. lia.
      * rewrite (handle_cons_other m u cb it hs Hkey).
        cbn [map List.concat]. rewrite !length_app, IH. lia.
  - split; [| split; [| split]].
    + intros Hyes. apply Hin in Hyes. discriminate.
    + intros _. exact Hkeys.
    + rewrite Hkeys. intros Hnodup.
      apply NoDup_app; [exact Hnodup | repeat constructor; intros [] | ].
      intros k Hk [<- | []]. apply Hin in Hk. discriminate.
    + clear Hin Hkeys Hex. induction hs as [| it hs IH]; [reflexivity |].
      destruct (http_key_is method_eqb m u it) eqn:Hkey.
      * rewrite (handle_cons_match m u cb it hs Hkey).
        cbn [map List.concat HttpHandlers.callbacks]. rewrite !length_app. cbn [List.length]. lia.
      * rewrite (handle_cons_other m u cb it hs Hkey).
        cbn [map List.concat]. rewrite !length_app, IH. lia.
Qed.

Lemma handleWebSocket_cons_match u cb (it : WebSocketHandlers.t Callback) ws :
  String.eqb (WebSocketHandlers.url it) u = true ->
  handleWebSocket u cb (it :: ws) =
  WebSocketHandlers.mk (WebSocketHandlers.url it) (WebSocketHandlers.callbacks it ++ [cb]) :: ws.
Proof.
  unfold handleWebSocket. cbn [handleWebSocket_loop]. intros ->. reflexivity.
Qed.

Lemma handleWebSocket_cons_other u cb (it : WebSocketHandlers.t Callback) ws :
  String.eqb (WebSocketHandlers.url it) u = false ->
  handleWebSocket u cb (it :: ws) = it :: handleWebSocket u cb ws.
Proof.
  unfold handleWebSocket. cbn [handleWebSocket_loop]. intros ->. cbn [negb].
  destruct (handleWebSocket_loop ws u cb); reflexivity.
Qed.

(** X19: after [handleWebSocket(url, callback)] the callbacks registered
    under that url are those registered before followed by the new one,
    those under every other url are unchanged; the urls of the handlers
    stay in order, the url being added at the end when it is new; and a
    vector without two handlers for one url stays without. *)
Theorem handleWebSocket_registers u cb ws :
  registeredWebSocket u (handleWebSocket u cb ws) = registeredWebSocket u ws ++ [cb] /\
  (forall u', u' <> u ->
     registeredWebSocket u' (handleWebSocket u cb ws) = registeredWebSocket u' ws) /\
  (In u (webSocket_keys ws) -> webSocket_keys (handleWebSocket u cb ws) = webSocket_keys ws) /\
  (~ In u (webSocket_keys ws) ->
     webSocket_keys (handleWebSocket u cb ws) = webSocket_keys ws ++ [u]) /\
  (NoDup (webSocket_keys ws) -> NoDup (webSocket_keys (handleWebSocket u cb ws))).
Proof.
  assert (Hkeys : webSocket_keys (handleWebSocket u cb ws) =
                  if existsb (fun h => String.eqb (WebSocketHandlers.url h) u) ws
                  then webSocket_keys ws else webSocket_keys ws ++ [u]).
  { induction ws as [| it ws IH]; [reflexivity |].
    cbn [existsb]. destruct (String.eqb (WebSocketHandlers.url it) u) eqn:Hkey.
    - rewrite (handleWebSocket_cons_match u cb it ws Hkey). reflexivity.
    - rewrite (handleWebSocket_cons_other u cb it ws Hkey). cbn [orb webSocket_keys map].
      unfold webSocket_keys in IH. rewrite IH.
      destruct (existsb _ ws); reflexivity. }
  assert (Hin : existsb (fun h => String.eqb (WebSocketHandlers.url h) u) ws = true <->
                In u (webSocket_keys ws)).
  { unfold webSocket_keys. rewrite existsb_exists, in_map_iff.
    split; intros [it [H1 H2]]; exists it.
    - split; [apply String.eqb_eq; exact H2 | exact H1].
    - split; [exact H2 | apply String.eqb_eq; exact H1]. }
  split; [| split; [| split; [| split]]].
  - clear Hkeys Hin. induction ws as [| it ws IH].
    + unfold handleWebSocket, registeredWebSocket. cbn [handleWebSocket_loop app find WebSocketHandlers.url].
      rewrite String.eqb_refl. reflexivity.
    + destruct (String.eqb (WebSocketHandlers.url it) u) eqn:Hkey.
      * rewrite (handleWebSocket_cons_match u cb it ws Hkey).
        unfold registeredWebSocket. cbn [find WebSocketHandlers.url]. rewrite Hkey. reflexivity.
      * rewrite (handleWebSocket_cons_other u cb it ws Hkey).
        unfold registeredWebSocket in *. cbn [find]. rewrite Hkey. exact IH.
  - clear Hkeys Hin. intros u' Hne. induction ws as [| it ws IH].
    + unfold handleWebSocket, registeredWebSocket. cbn [handleWebSocket_loop app find WebSocketHandlers.url].
      replace (String.eqb u u') with false; [reflexivity |].
      symmetry. apply String.eqb_neq. congruence.
    + destruct (String.eqb (WebSocketHandlers.url it) u) eqn:Hkey.
      * rewrite (handleWebSocket_cons_match u cb it ws Hkey).
        unfold registeredWebSocket. cbn [find WebSocketHandlers.url].
        apply String.eqb_eq in Hkey.
        replace (String.eqb (WebSocketHandlers.url it) u') with false; [reflexivity |].
        symmetry. apply String.eqb_neq. congruence.
      * rewrite (handleWebSocket_cons_other u cb it ws Hkey).
        unfold registeredWebSocket in *. cbn [find].
        destruct (String.eqb (WebSocketHandlers.url it) u'); [reflexivity | exact IH].
  - intros Hyes. apply Hin in Hyes. rewrite Hkeys, Hyes. reflexivity.
  - intros Hnot. rewrite Hkeys.
    destruct (existsb _ ws); [exfalso; apply Hnot, Hin; reflexivity | reflexivity].
  - intros Hnodup. rewrite Hkeys.
    destruct (existsb _ ws) eqn:Hex; [exact Hnodup |].
    apply NoDup_app; [exact Hnodup | repeat constructor; intros [] |].
    intros k Hk [<- | []]. apply Hin in Hk. discriminate.
Qed.

End RegistrationProperties.

(** ** The life cycle of the server *)

(** X20: [stop] stops the worker and then destroys the context if there is
    one, exactly once, and clears it; a second [stop] only stops the worker
    again, and [wakeup] after [stop] makes no call. *)
Theorem stop_releases_context_once (srv : Server) :
  context (stop srv) = 0 /\
  (context srv = 0 -> calls (stop srv) = calls srv ++ [WorkerStop]) /\
  (context srv <> 0 ->
     calls (stop srv) = calls srv ++ [WorkerStop; LwsContextDestroy (context srv)]) /\
  calls (stop (stop srv)) = calls (stop srv) ++ [WorkerStop] /\
  wakeup (stop srv) = stop srv.
Proof.
  unfold stop, wakeup, called. cbn [context calls info].
  destruct (Z.eqb_spec (context srv) 0) as [Hnull | Hctx];
    cbn [context calls info Z.eqb negb].
  - rewrite Hnull. cbn [Z.eqb negb]. repeat split. intros Hne. exfalso. apply Hne. reflexivity.
  - repeat split.
    + intros Hnull. exfalso. apply Hctx. exact Hnull.
    + intros _. rewrite <- app_assoc. reflexivity.
Qed.

(** X21: the destructor does what [stop] does and nothing more: its own
    destruction of the context is never reached, because [stop] has
    cleared the context; a context held is destroyed exactly once, and
    no other context is destroyed. *)
Theorem destructor_destroys_once (srv : Server) (c : Z) :
  destructor srv = stop srv /\
  (c <> 0 ->
   destroys c (calls (destructor srv)) =
   (destroys c (calls srv) + (if (context srv =? c)%Z then 1 else 0))%nat).
Proof.
  assert (Hsame : destructor srv = stop srv).
  { unfold destructor.
    destruct (stop_releases_context_once srv) as (-> & _). reflexivity. }
  split; [exact Hsame |].
  intros Hc. rewrite Hsame. unfold destroys.
  destruct (stop_releases_context_once srv) as (_ & Hnull & Hheld & _).
  destruct (Z.eq_dec (context srv) 0) as [H0 | Hne].
  - rewrite (Hnull H0), filter_app, length_app, H0. cbn [filter List.length].
    replace (0 =? c) with false by (symmetry; apply Z.eqb_neq; congruence). lia.
  - rewrite (Hheld Hne), filter_app, length_app. cbn [filter].
    destruct (context srv =? c); cbn [List.length]; lia.
Qed.

Section InitProperties.

Variable lws_create_context : lws_context_creation_info -> list ServerCall -> Z.

(** X22: [init] asks the library for a context once, with an info that
    holds the port given, a service buffer of 8388608 bytes (8 MiB),
    "/404.html" as error document and the one option
    HTTP_HEADERS_SECURITY_BEST_PRACTICES_ENFORCE, and keeps the info and
    what the library returns.  The worker thread is started, with a 20 ms
    interval, exactly when a context was obtained; otherwise one error
    line is printed, and a [wakeup] that follows makes no call.  [init]
    never destroys a context, one already held included. *)
Theorem init_starts_worker_only_with_context (port_ : Z) (srv : Server) :
  info (init lws_create_context port_ srv) =
    mk_info port_ 8388608 "/404.html"
      (Some LWS_SERVER_OPTION_HTTP_HEADERS_SECURITY_BEST_PRACTICES_ENFORCE) /\
  port (info (init lws_create_context port_ srv)) = port_ /\
  pt_serv_buf_size (info (init lws_create_context port_ srv)) = 8388608 /\
  error_document_404 (info (init lws_create_context port_ srv)) = "/404.html"%string /\
  options (info (init lws_create_context port_ srv)) =
    Some LWS_SERVER_OPTION_HTTP_HEADERS_SECURITY_BEST_PRACTICES_ENFORCE /\
  context (init lws_create_context port_ srv) =
    lws_create_context
      (mk_info port_ 8388608 "/404.html"
         (Some LWS_SERVER_OPTION_HTTP_HEADERS_SECURITY_BEST_PRACTICES_ENFORCE))
      (calls srv) /\
  (lws_create_context
     (mk_info port_ 8388608 "/404.html"
        (Some LWS_SERVER_OPTION_HTTP_HEADERS_SECURITY_BEST_PRACTICES_ENFORCE))
     (calls srv) <> 0 ->
     calls (init lws_create_context port_ srv) =
     calls srv ++
       [LwsCreateContext
          (mk_info port_ 8388608 "/404.html"
             (Some LWS_SERVER_OPTION_HTTP_HEADERS_SECURITY_BEST_PRACTICES_ENFORCE));
        WorkerInit 20]) /\
  (lws_create_context
     (mk_info port_ 8388608 "/404.html"
        (Some LWS_SERVER_OPTION_HTTP_HEADERS_SECURITY_BEST_PRACTICES_ENFORCE))
     (calls srv) = 0 ->
     calls (init lws_create_context port_ srv) =
     calls srv ++
       [LwsCreateContext
          (mk_info port_ 8388608 "/404.html"
             (Some LWS_SERVER_OPTION_HTTP_HEADERS_SECURITY_BEST_PRACTICES_ENFORCE));
        PrintError ("lws init failed" ++ String "010" "")%string] /\
     wakeup (init lws_create_context port_ srv) = init lws_create_context port_ srv) /\
  (forall c, destroys c (calls (init lws_create_context port_ srv)) = destroys c (calls srv)).
Proof.
  assert (Hinfo : init_info port_ =
                  mk_info port_ 8388608 "/404.html"
                    (Some LWS_SERVER_OPTION_HTTP_HEADERS_SECURITY_BEST_PRACTICES_ENFORCE))
    by reflexivity.
  rewrite <- Hinfo.
  assert (Hdestroys : forall c extra,
            (forall x, extra <> LwsContextDestroy x) ->
            destroys c ((calls srv ++ [LwsCreateContext (init_info port_)]) ++ [extra]) =
            destroys c (calls srv)).
  { intros c extra Hextra. unfold destroys.
    rewrite <- app_assoc, filter_app, length_app. cbn [app filter].
    destruct extra as [i | x | x | ms | | | msg]; try (cbn [List.length]; lia).
    exfalso. apply (Hextra x). reflexivity. }
  unfold init, called, wakeup. cbv zeta. cbn [context calls info].
  destruct (Z.eqb_spec (lws_create_context (init_info port_) (calls srv)) 0) as [Hnull | Hctx];
    cbn [context calls info].
  - do 6 (split; [reflexivity |]). split; [| split].
    + intros Hne. exfalso. apply Hne. exact Hnull.
    + intros _. split.
      * rewrite <- app_assoc. reflexivity.
      * rewrite Hnull. reflexivity.
    + intros c. apply Hdestroys. discriminate.
  - do 6 (split; [reflexivity |]). split; [| split].
    + intros _. rewrite <- app_assoc. reflexivity.
    + intros Hnull. exfalso. apply Hctx. exact Hnull.
    + intros c. apply Hdestroys. discriminate.
Qed.

End InitProperties.

(** ** The further properties at concrete sockets and servers *)

Lemma create_socket_call_witness :
  w_trace (world (create (stateless healthy) packet_raw_nonblocking world0)) =
    [SysSocket 17 2051 0] /\
  w_trace (world (create (stateless healthy) packet_raw world0)) = [SysSocket 17 3 0] /\
  self (create (stateless healthy) packet_raw_nonblocking world0) =
    with_fd 4 packet_raw_nonblocking.
Proof.
  assert (Hd : mapProtocolDomain (_protocolDomain packet_raw_nonblocking) <> -1)
    by (vm_compute; discriminate).
  assert (Ht : mapType (_type packet_raw_nonblocking) <> -1) by (vm_compute; discriminate).
  assert (Hd' : mapProtocolDomain (_protocolDomain packet_raw) <> -1)
    by (vm_compute; discriminate).
  assert (Ht' : mapType (_type packet_raw) <> -1) by (vm_compute; discriminate).
  split; [| split].
  - exact (proj1 (create_socket_call (stateless healthy) packet_raw_nonblocking world0 Hd Ht)).
  - exact (proj1 (create_socket_call (stateless healthy) packet_raw world0 Hd' Ht')).
  - exact (proj2 (proj2 (proj2
             (create_socket_call (stateless healthy) packet_raw_nonblocking world0 Hd Ht)))).
Defined.

Lemma failed_create_forgets_descriptor_witness :
  _fd unix_stream_open = 3 /\
  returned (create (stateless no_descriptors) unix_stream_open world0) =
    Failure (GenericError EMFILE) /\
  _fd (self (create (stateless no_descriptors) unix_stream_open world0)) = -1 /\
  w_trace (world (close (stateless no_descriptors)
                    (self (create (stateless no_descriptors) unix_stream_open world0))
                    (world (create (stateless no_descriptors) unix_stream_open world0)))) =
    [SysSocket AF_UNIX SOCK_STREAM 0].
Proof.
  assert (Hd : mapProtocolDomain (_protocolDomain unix_stream_open) <> -1)
    by (vm_compute; discriminate).
  assert (Ht : mapType (_type unix_stream_open) <> -1) by (vm_compute; discriminate).
  destruct (failed_create_forgets_descriptor (stateless no_descriptors) unix_stream_open world0
              EMFILE Hd Ht eq_refl eq_refl) as (Hret & Hfd & Hclose & _).
  split; [reflexivity |]. split; [exact Hret |]. split; [exact Hfd |].
  rewrite Hclose. reflexivity.
Defined.

Lemma createUnnamedPair_contract_witness :
  createUnnamedPair fresh_descriptors Unix Datagram 0 true world_from_3 =
    (Success (PosixSocket_adopt Unix Datagram 0 true 3, PosixSocket_adopt Unix Datagram 0 true 4),
     after fresh_descriptors (socketpair_call Unix Datagram true) world_from_3) /\
  createUnnamedPair (stateless no_pair) Unix Datagram 0 true world0 =
    (Failure (GenericError EMFILE),
     after (stateless no_pair) (socketpair_call Unix Datagram true) world0).
Proof.
  assert (Hd : mapProtocolDomain Unix <> -1) by (vm_compute; discriminate).
  assert (Ht : mapType Datagram <> -1) by (vm_compute; discriminate).
  assert (Hne : r_value (answer (stateless no_pair) (socketpair_call Unix Datagram true) world0) <> 0)
    by (vm_compute; discriminate).
  split.
  - exact (proj1 (createUnnamedPair_contract fresh_descriptors Unix Datagram 0 true world_from_3
                    Hd Ht) eq_refl).
  - exact (proj1 (proj2 (createUnnamedPair_contract (stateless no_pair) Unix Datagram 0 true world0
                    Hd Ht)) EMFILE Hne eq_refl).
Defined.

Lemma pair_members_close_their_own_witness :
  w_trace (world (close fresh_descriptors (PosixSocket_adopt Unix Stream 0 false 4)
                    (world (close fresh_descriptors (PosixSocket_adopt Unix Stream 0 false 3)
                              (after fresh_descriptors (socketpair_call Unix Stream false)
                                 world_from_3))))) =
    [SysSocketpair AF_UNIX SOCK_STREAM 0; SysClose 3; SysClose 4].
Proof.
  assert (Ha : _fd (PosixSocket_adopt Unix Stream 0 false 3) <> -1) by (vm_compute; discriminate).
  assert (Hb : _fd (PosixSocket_adopt Unix Stream 0 false 4) <> -1) by (vm_compute; discriminate).
  assert (Hca : r_value (answer fresh_descriptors (SysClose (_fd (PosixSocket_adopt Unix Stream 0 false 3)))
                   (after fresh_descriptors (socketpair_call Unix Stream false) world_from_3)) <> -1)
    by (vm_compute; discriminate).
  assert (Hcb : r_value (answer fresh_descriptors (SysClose (_fd (PosixSocket_adopt Unix Stream 0 false 4)))
                   (after fresh_descriptors (SysClose (_fd (PosixSocket_adopt Unix Stream 0 false 3)))
                      (after fresh_descriptors (socketpair_call Unix Stream false) world_from_3))) <> -1)
    by (vm_compute; discriminate).
  exact (proj2 (proj2 (proj2 (proj2
    (pair_members_close_their_own fresh_descriptors Unix Stream 0 false world_from_3
       (PosixSocket_adopt Unix Stream 0 false 3) (PosixSocket_adopt Unix Stream 0 false 4)
       (after fresh_descriptors (socketpair_call Unix Stream false) world_from_3)
       eq_refl Ha Hb Hca Hcb))))).
Defined.

Lemma write_contract_witness :
  returned (write (stateless broken_pipe) three_bytes unix_stream_open world0) =
    Failure (GenericError EPIPE) /\
  returned (write (stateless short_writes) three_bytes unix_stream_open world0) = Success 1 /\
  w_trace (world (write (stateless short_writes) three_bytes unix_stream_open world0)) =
    [SysWrite 3 three_bytes].
Proof.
  assert (Hok : r_value (answer (stateless short_writes)
                   (SysWrite (_fd unix_stream_open) three_bytes) world0) <> -1)
    by (vm_compute; discriminate).
  split; [| split].
  - exact (proj1 (proj2 (proj2 (write_contract (stateless broken_pipe) unix_stream_open world0
                    three_bytes))) EPIPE eq_refl eq_refl).
  - exact (proj2 (proj2 (proj2 (write_contract (stateless short_writes) unix_stream_open world0
                    three_bytes))) Hok).
  - exact (proj1 (proj2 (write_contract (stateless short_writes) unix_stream_open world0
                    three_bytes))).
Defined.

Lemma destroy_after_close_witness :
  destroy (stateless healthy) unix_stream world0 = world0 /\
  w_trace (destroy (stateless healthy)
             (self (close (stateless healthy) unix_stream_open world0))
             (world (close (stateless healthy) unix_stream_open world0))) = [SysClose 3] /\
  w_trace (destroy (stateless close_fails)
             (self (close (stateless close_fails) unix_stream_open world0))
             (world (close (stateless close_fails) unix_stream_open world0))) =
    [SysClose 3; SysClose 3].
Proof.
  assert (Hopen : _fd unix_stream_open <> -1) by (vm_compute; discriminate).
  assert (Hfailed : returned (close (stateless close_fails) unix_stream_open world0) <> Success tt)
    by (vm_compute; discriminate).
  split; [| split].
  - exact (proj1 (destroy_after_close (stateless healthy) unix_stream world0) eq_refl).
  - exact (proj1 (proj2 (destroy_after_close (stateless healthy) unix_stream_open world0))
             Hopen eq_refl).
  - exact (proj2 (proj2 (destroy_after_close (stateless close_fails) unix_stream_open world0))
             Hopen Hfailed).
Defined.

Lemma unknown_interface_witness :
  returned (bind (stateless no_interface) "eth9" packet_raw world0) =
    Failure (GenericError ENODEV) /\
  returned (sendTo (stateless no_interface) "eth9" three_bytes packet_raw world0) =
    Failure (GenericError ENODEV) /\
  self (bind (stateless no_interface) "eth9" packet_raw world0) = with_fd 4 packet_raw /\
  w_trace (world (bind (stateless no_interface) "eth9" packet_raw world0)) =
    [SysSocket AF_PACKET SOCK_RAW 0; SysIfNametoindex (c_str "eth9");
     SysStderr ("Failed finding adapter: 0: eth9" ++ String "010" "")%string].
Proof.
  assert (Hok : 4 <> -1) by discriminate.
  destruct (unknown_interface (stateless no_interface) packet_raw world0 "eth9" three_bytes 4
              eq_refl eq_refl Hok eq_refl) as ((Hself & Htrace & _) & Herr).
  destruct (Herr ENODEV eq_refl eq_refl) as (Hbind & Hsend).
  split; [exact Hbind |]. split; [exact Hsend |]. split; [exact Hself | exact Htrace].
Defined.

Lemma packet_bind_records_url_witness :
  self (bind (stateless address_in_use) "eth0" packet_raw world0) = with_fd 4 packet_raw /\
  _url (self (bind (stateless membership_denied) "eth0" packet_raw world0)) = "eth0"%string /\
  (exists e, returned (bind (stateless membership_denied) "eth0" packet_raw world0) =
             Failure (GenericError e)) /\
  returned (bind (stateless healthy) "eth0" packet_raw world0) = Success tt.
Proof.
  assert (Hok : 4 <> -1) by discriminate.
  assert (Hfound : 2 <> 0) by discriminate.
  assert (Hbound : r_value (answer (stateless membership_denied)
                      (packet_bind_call 4 (_frameType packet_raw) 2)
                      (after_all (stateless membership_denied)
                         [create_call packet_raw; lookup_call "eth0"] world0)) <> -1)
    by (vm_compute; discriminate).
  assert (Hbound' : r_value (answer (stateless healthy)
                      (packet_bind_call 4 (_frameType packet_raw) 2)
                      (after_all (stateless healthy)
                         [create_call packet_raw; lookup_call "eth0"] world0)) <> -1)
    by (vm_compute; discriminate).
  assert (Hjoined : r_value (answer (stateless healthy) (membership_call 4 2)
                      (after_all (stateless healthy)
                         [create_call packet_raw; lookup_call "eth0";
                          packet_bind_call 4 (_frameType packet_raw) 2] world0)) <> -1)
    by (vm_compute; discriminate).
  split; [| split; [| split]].
  - exact (proj1 (proj1 (packet_bind_records_url (stateless address_in_use) packet_raw world0
                    "eth0" 4 2 eq_refl eq_refl Hok eq_refl Hfound) eq_refl)).
  - exact (f_equal _url (proj1 (proj2 (packet_bind_records_url (stateless membership_denied)
                    packet_raw world0 "eth0" 4 2 eq_refl eq_refl Hok eq_refl Hfound) Hbound))).
  - exact (proj2 (proj2 (proj2 (packet_bind_records_url (stateless membership_denied)
                    packet_raw world0 "eth0" 4 2 eq_refl eq_refl Hok eq_refl Hfound) Hbound))
             eq_refl).
  - exact (proj1 (proj1 (proj2 (proj2 (packet_bind_records_url (stateless healthy)
                    packet_raw world0 "eth0" 4 2 eq_refl eq_refl Hok eq_refl Hfound) Hbound'))
             Hjoined)).
Defined.

Lemma sendTo_sends_only_when_resolved_witness :
  sendTo (stateless healthy) "eth0" three_bytes unix_stream_open world0 =
    mkRun (Failure (PosixError OperationNotSupported)) unix_stream_open world0 /\
  (In (sendto_call 4 35020 2 three_bytes) (w_trace world0) \/
   (is_Packet (_protocolDomain packet_raw) && is_Raw (_type packet_raw) = true /\
    r_value (answer (stateless healthy) (create_call packet_raw) world0) <> -1 /\
    r_value (answer (stateless healthy) (lookup_call "eth0")
               (after_all (stateless healthy) [create_call packet_raw] world0)) <> 0)).
Proof.
  assert (Hin : In (sendto_call 4 35020 2 three_bytes)
                  (w_trace (world (sendTo (stateless healthy) "eth0" three_bytes packet_raw world0))))
    by (right; right; left; reflexivity).
  split.
  - exact (proj1 (sendTo_sends_only_when_resolved (stateless healthy) unix_stream_open world0
                    "eth0" three_bytes) eq_refl).
  - exact (proj2 (sendTo_sends_only_when_resolved (stateless healthy) packet_raw world0
                    "eth0" three_bytes) (sendto_call 4 35020 2 three_bytes) Hin eq_refl).
Defined.

Lemma unix_bind_connect_result_witness :
  returned (bind (stateless healthy) "/tmp/katla.sock" unix_stream world0) = Success tt /\
  returned (bind (stateless address_in_use) "/tmp/katla.sock" unix_stream world0) =
    Failure (GenericError EADDRINUSE) /\
  returned (connect (stateless healthy) "/tmp/katla.sock" unix_stream world0) = Success tt /\
  returned (connect (stateless address_in_use) "/tmp/katla.sock" unix_stream world0) =
    Failure (GenericError ECONNREFUSED).
Proof.
  assert (Ht : mapType (_type unix_stream) <> -1) by (vm_compute; discriminate).
  assert (Hok : 4 <> -1) by discriminate.
  assert (Hlen : Z.of_nat (String.length "/tmp/katla.sock") <= 107) by (vm_compute; discriminate).
  assert (Hbound : r_value (answer (stateless healthy) (unix_bind_call 4 "/tmp/katla.sock")
                      (after_all (stateless healthy) [create_call unix_stream] world0)) <> -1)
    by (vm_compute; discriminate).
  assert (Hconnected : r_value (answer (stateless healthy) (unix_connect_call 4 "/tmp/katla.sock")
                      (after_all (stateless healthy) [create_call unix_stream] world0)) <> -1)
    by (vm_compute; discriminate).
  split; [| split; [| split]].
  - exact (proj1 (proj1 (unix_bind_connect_result (stateless healthy) unix_stream world0
                    "/tmp/katla.sock" 4 eq_refl Ht eq_refl Hok Hlen) Hbound)).
  - exact (proj1 (proj2 (unix_bind_connect_result (stateless address_in_use) unix_stream world0
                    "/tmp/katla.sock" 4 eq_refl Ht eq_refl Hok Hlen))
             EADDRINUSE eq_refl eq_refl eq_refl).
  - exact (proj1 (proj1 (proj2 (proj2 (unix_bind_connect_result (stateless healthy) unix_stream
                    world0 "/tmp/katla.sock" 4 eq_refl Ht eq_refl Hok Hlen))) Hconnected)).
  - exact (proj2 (proj2 (proj2 (unix_bind_connect_result (stateless address_in_use) unix_stream
                    world0 "/tmp/katla.sock" 4 eq_refl Ht eq_refl Hok Hlen)))
             ECONNREFUSED eq_refl eq_refl eq_refl).
Defined.

Lemma url_changes_only_in_packet_bind_witness :
  _url (self (bind (stateless healthy) "/tmp/katla.sock" unix_stream world0)) = ""%string.
Proof.
  exact (proj1 (url_changes_only_in_packet_bind (stateless healthy) unix_stream world0
                  "/tmp/katla.sock" [] 0 0 false) eq_refl).
Defined.

Lemma poll_request_witness :
  Z.testbit (poll_events true) 2 = true /\
  Z.testbit (poll_events false) 2 = false /\
  to_int (-1) = -1.
Proof.
  assert (H2 : 0 <= 2) by discriminate.
  assert (Hrange : -2147483648 <= -1 < 2147483648) by (split; [discriminate | reflexivity]).
  split; [| split].
  - exact (proj1 (proj2 (poll_request (stateless healthy) unix_stream_open world0 0 true)) 2 H2).
  - exact (proj1 (proj2 (poll_request (stateless healthy) unix_stream_open world0 0 false)) 2 H2).
  - exact (proj2 (proj2 (poll_request (stateless healthy) unix_stream_open world0 (-1) false))
             Hrange).
Defined.

Lemma frame_type_in_network_order_witness :
  Z.testbit (sll_protocol (bind_address 35020 2)) 0 = Z.testbit 35020 8 /\
  Z.testbit (sll_protocol (bind_address 35020 2)) 8 = Z.testbit 35020 0 /\
  Z.testbit (sll_protocol (bind_address 35020 2)) 16 = false.
Proof.
  assert (H0 : 0 <= 0 < 8) by (split; [discriminate | reflexivity]).
  assert (H16 : 16 <= 16) by discriminate.
  split; [| split].
  - exact (proj1 (proj1 (proj2 (proj2 (frame_type_in_network_order 35020 2))) 0 H0)).
  - exact (proj2 (proj1 (proj2 (proj2 (frame_type_in_network_order 35020 2))) 0 H0)).
  - exact (proj2 (proj2 (proj2 (frame_type_in_network_order 35020 2))) 16 H16).
Defined.

Lemma unix_address_nul_terminated_witness :
  List.length (sun_path (unix_address path107)) = 108%nat /\
  sun_path (unix_address "/a") = ["/"; "a"]%char ++ repeat zero 106.
Proof.
  assert (H107 : (String.length path107 < 108)%nat) by (vm_compute; apply Nat.le_refl).
  assert (H2 : (String.length "/a" < 108)%nat) by (vm_compute; lia).
  split.
  - exact (proj1 (proj2 (proj2 (unix_address_nul_terminated path107 H107)))).
  - exact (proj1 (proj2 (unix_address_nul_terminated "/a" H2))).
Defined.

Lemma mappings_are_injective_witness :
  mapProtocolDomain (DomainOther 99) = -1 /\
  (exists raw, TypeOther 7 = TypeOther raw) /\
  Packet = Packet /\
  Raw = Raw.
Proof.
  assert (Hd : mapProtocolDomain Packet <> -1) by (vm_compute; discriminate).
  assert (Ht : mapType Raw <> -1) by (vm_compute; discriminate).
  split; [| split; [| split]].
  - exact (proj2 (proj1 (mappings_are_injective (DomainOther 99) Unix Raw Raw))
             (ex_intro _ 99 eq_refl)).
  - exact (proj1 (proj1 (proj2 (mappings_are_injective Unix Unix (TypeOther 7) Raw))) eq_refl).
  - exact (proj1 (proj2 (proj2 (mappings_are_injective Packet Packet Raw Raw))) Hd eq_refl).
  - exact (proj2 (proj2 (proj2 (mappings_are_injective Packet Packet Raw Raw))) Ht eq_refl).
Defined.

Lemma handle_registers_witness :
  registered Bool.eqb false "/b" (handle Bool.eqb false "/b" 3%nat two_handlers) = [2; 3]%nat /\
  registered Bool.eqb true "/b" (handle Bool.eqb true "/b" 3%nat two_handlers) = [3]%nat /\
  registered Bool.eqb true "/a" (handle Bool.eqb false "/b" 3%nat two_handlers) = [1]%nat.
Proof.
  assert (Hne : ("/a"%string, true) <> ("/b"%string, false)) by discriminate.
  split; [| split].
  - exact (proj1 (handle_registers Bool.eqb Bool.eqb_true_iff false "/b" 3%nat two_handlers)).
  - exact (proj1 (handle_registers Bool.eqb Bool.eqb_true_iff true "/b" 3%nat two_handlers)).
  - exact (proj2 (handle_registers Bool.eqb Bool.eqb_true_iff false "/b" 3%nat two_handlers)
             true "/a" Hne).
Defined.

Lemma handle_keeps_keys_unique_witness :
  http_keys (handle Bool.eqb true "/b" 3%nat two_handlers) =
    [("/a", true); ("/b", false); ("/b", true)]%string /\
  NoDup (http_keys (handle Bool.eqb true "/b" 3%nat two_handlers)).
Proof.
  assert (Hnew : ~ In ("/b"%string, true) (http_keys two_handlers))
    by (intros [H | [H | []]]; discriminate).
  assert (Hnodup : NoDup (http_keys two_handlers)).
  { constructor; [intros [H | []]; discriminate |].
    constructor; [intros [] | constructor]. }
  split.
  - exact (proj1 (proj2 (handle_keeps_keys_unique Bool.eqb Bool.eqb_true_iff true "/b" 3%nat
                    two_handlers)) Hnew).
  - exact (proj1 (proj2 (proj2 (handle_keeps_keys_unique Bool.eqb Bool.eqb_true_iff true "/b"
                    3%nat two_handlers))) Hnodup).
Defined.

Lemma handleWebSocket_registers_witness :
  registeredWebSocket "/a" (handleWebSocket "/b" 3%nat two_sockets) = [1]%nat /\
  webSocket_keys (handleWebSocket "/c" 3%nat two_sockets) = ["/a"; "/b"; "/c"]%string.
Proof.
  assert (Hne : "/a"%string <> "/b"%string) by discriminate.
  assert (Hnew : ~ In "/c"%string (webSocket_keys two_sockets))
    by (intros [H | [H | []]]; discriminate).
  split.
  - exact (proj1 (proj2 (handleWebSocket_registers "/b" 3%nat two_sockets)) "/a"%string Hne).
  - exact (proj1 (proj2 (proj2 (proj2 (handleWebSocket_registers "/c" 3%nat two_sockets)))) Hnew).
Defined.

Lemma stop_releases_context_once_witness :
  calls (stop server_idle) = [WorkerStop] /\
  calls (stop server_running) = [WorkerStop; LwsContextDestroy 7].
Proof.
  assert (Hheld : context server_running <> 0) by (vm_compute; discriminate).
  split.
  - exact (proj1 (proj2 (stop_releases_context_once server_idle)) eq_refl).
  - exact (proj1 (proj2 (proj2 (stop_releases_context_once server_running))) Hheld).
Defined.

Lemma destructor_destroys_once_witness :
  destroys 7 (calls (destructor (stop server_running))) = 1%nat /\
  destroys 7 (calls (destructor server_running)) = 1%nat.
Proof.
  assert (H7 : 7 <> 0) by discriminate.
  split.
  - exact (proj2 (destructor_destroys_once (stop server_running) 7) H7).
  - exact (proj2 (destructor_destroys_once server_running 7) H7).
Defined.

Lemma init_starts_worker_only_with_context_witness :
  calls (init lws_gives_7 8080 server_idle) =
    [LwsCreateContext
       (mk_info 8080 8388608 "/404.html"
          (Some LWS_SERVER_OPTION_HTTP_HEADERS_SECURITY_BEST_PRACTICES_ENFORCE));
     WorkerInit 20] /\
  calls (init lws_fails 8080 server_idle) =
    [LwsCreateContext
       (mk_info 8080 8388608 "/404.html"
          (Some LWS_SERVER_OPTION_HTTP_HEADERS_SECURITY_BEST_PRACTICES_ENFORCE));
     PrintError ("lws init failed" ++ String "010" "")%string].
Proof.
  assert (H7 : lws_gives_7
                 (mk_info 8080 8388608 "/404.html"
                    (Some LWS_SERVER_OPTION_HTTP_HEADERS_SECURITY_BEST_PRACTICES_ENFORCE))
                 (calls server_idle) <> 0) by (vm_compute; discriminate).
  split.
  - exact (proj1 (proj2 (proj2 (proj2 (proj2 (proj2 (proj2
             (init_starts_worker_only_with_context lws_gives_7 8080 server_idle))))))) H7).
  - exact (proj1 (proj1 (proj2 (proj2 (proj2 (proj2 (proj2 (proj2 (proj2
             (init_starts_worker_only_with_context lws_fails 8080 server_idle)))))))) eq_refl)).
Defined.
